(** * Comparador Renda Fixa: the calculation engine of [streamlit_app.py]

    A shallow embedding of the numeric core of the Streamlit script: the
    two module-level helpers [default_tax_rate] and
    [calculate_compound_return], the calculation block of the first tab
    (individual analysis) and the scenario loop with its best/worst
    selection of the second tab (multiple scenarios).

    Numbers.  Python [float] values are read as real numbers ([R]): rounding
    and the silent infinities and NaN of [+], [-], [*] and [/] are
    abstracted away, every other behaviour of the operators is kept, in
    particular
    - [/] raises [ZeroDivisionError] on a zero divisor,
    - [**] raises [OverflowError] when the power leaves the range of a
      double,
    - [**] on a negative base and a non-integral exponent yields a
      [complex], which the ordering comparisons refuse with [TypeError],
    - [max]/[min] of an empty sequence raise [ValueError].
    Python [int] values coming from the integer widgets (the terms in days)
    are [Z]; an [int] that meets a [float] in an operation is injected by
    [IZR]. *)

From Stdlib Require Import Reals Lra Lia ZArith List Ascii String DecimalString.
Import ListNotations.
Open Scope R_scope.

(** ** The Python runtime, as far as the script uses it *)

Module Py.

(** The exceptions the modelled statements can raise. *)
Inductive exn : Set :=
| ZeroDivisionError
| OverflowError
| UnboundLocalError
| TypeError
| ValueError.

(** Outcome of evaluating an expression or running a block. *)
Inductive result (A : Type) : Type :=
| Ok (a : A)
| Raise (e : exn).

Arguments Ok {A} a.
Arguments Raise {A} e.

Definition bind {A B : Type} (m : result A) (k : A -> result B) : result B :=
  match m with
  | Ok a => k a
  | Raise e => Raise e
  end.

Notation "x <- m ;; k" := (bind m (fun x => k))
  (at level 61, m at next level, right associativity).
Notation "' p <- m ;; k" := (bind m (fun p => k))
  (at level 61, p pattern, m at next level, right associativity).

(** A numeric object: a [float] (or an [int] met by a float) or a
    [complex] with its real and imaginary parts. *)
Inductive pynum : Set :=
| PyFloat (x : R)
| PyComplex (re im : R).

Definition to_complex (a : pynum) : R * R :=
  match a with
  | PyFloat x => (x, 0)
  | PyComplex re im => (re, im)
  end.

(** [a + b], [a - b], [a * b]: real arithmetic on two floats, complex
    arithmetic as soon as one operand is complex. *)
Definition py_add (a b : pynum) : pynum :=
  match a, b with
  | PyFloat x, PyFloat y => PyFloat (x + y)
  | _, _ =>
      let '(ar, ai) := to_complex a in
      let '(br, bi) := to_complex b in
      PyComplex (ar + br) (ai + bi)
  end.

Definition py_sub (a b : pynum) : pynum :=
  match a, b with
  | PyFloat x, PyFloat y => PyFloat (x - y)
  | _, _ =>
      let '(ar, ai) := to_complex a in
      let '(br, bi) := to_complex b in
      PyComplex (ar - br) (ai - bi)
  end.

Definition py_mul (a b : pynum) : pynum :=
  match a, b with
  | PyFloat x, PyFloat y => PyFloat (x * y)
  | _, _ =>
      let '(ar, ai) := to_complex a in
      let '(br, bi) := to_complex b in
      PyComplex (ar * br - ai * bi) (ar * bi + ai * br)
  end.

(** [a / b] on floats: [float_div] of CPython raises on a zero divisor. *)
Definition float_truediv (a b : R) : result R :=
  if Req_dec_T b 0 then Raise ZeroDivisionError else Ok (a / b).

(** [a / b] on numeric objects; the complex quotient raises as well when
    the divisor is zero. *)
Definition py_truediv (a b : pynum) : result pynum :=
  match a, b with
  | PyFloat x, PyFloat y => q <- float_truediv x y ;; Ok (PyFloat q)
  | _, _ =>
      let '(ar, ai) := to_complex a in
      let '(br, bi) := to_complex b in
      if Req_dec_T (br * br + bi * bi) 0 then Raise ZeroDivisionError
      else Ok (PyComplex ((ar * br + ai * bi) / (br * br + bi * bi))
                         ((ai * br - ar * bi) / (br * br + bi * bi)))
  end.

(** [a > b] and [a < b]: defined on floats, [TypeError] on a complex. *)
Definition py_gt (a b : pynum) : result bool :=
  match a, b with
  | PyFloat x, PyFloat y => Ok (if Rlt_dec y x then true else false)
  | _, _ => Raise TypeError
  end.

Definition py_lt (a b : pynum) : result bool :=
  match a, b with
  | PyFloat x, PyFloat y => Ok (if Rlt_dec x y then true else false)
  | _, _ => Raise TypeError
  end.

(** [w == floor(w)], the integrality test of [float_pow]. *)
Definition is_integral (w : R) : bool :=
  if Req_dec_T w (IZR (Int_part w)) then true else false.

(** The least magnitude that no longer rounds to a finite double:
    [2^1024 - 2^970], half a unit in the last place above the largest
    double. *)
Definition DBL_OVERFLOW : R := IZR (2 ^ 1024 - 2 ^ 970).

(** The result [x] of the C function [pow] on the magnitudes: out of the
    range of a double it is an infinity with [ERANGE], which CPython
    turns into [OverflowError]. *)
Definition libm_pow (x y : R) : result R :=
  if Rlt_dec (Rpower x y) DBL_OVERFLOW then Ok (Rpower x y)
  else Raise OverflowError.

(** [v ** w] on floats, following the case analysis of CPython's
    [float_pow]:
    - anything to the power 0 is 1;
    - a zero base gives 0 for a positive exponent and raises for a
      negative one;
    - a negative base with an integral exponent gives the power of the
      absolute value, negated when the exponent is odd;
    - a negative base with any other exponent is handed to the complex
      power, which returns [len * (cos phase + i sin phase)] for
      [len = |v| ** w] and [phase = atan2(0, v) * w = pi * w], and raises
      as well when a part of it is infinite;
    - a positive base gives the real power. *)
Definition float_pow (v w : R) : result pynum :=
  if Req_dec_T w 0 then Ok (PyFloat 1)
  else if Req_dec_T v 0 then
    if Rlt_dec w 0 then Raise ZeroDivisionError else Ok (PyFloat 0)
  else if Rlt_dec v 0 then
    len <- libm_pow (- v) w ;;
    if is_integral w then
      Ok (PyFloat (if Z.odd (Int_part w) then - len else len))
    else
      Ok (PyComplex (len * cos (PI * w)) (len * sin (PI * w)))
  else
    ix <- libm_pow v w ;;
    Ok (PyFloat ix).

(** The loop shared by the builtins [max] and [min] when a [key] is given
    ([min_max] in CPython): the first item is taken, and a later item
    replaces the current one only when its key compares strictly beyond
    the current key under [op] ([>] for [max], [<] for [min]). *)
Section MinMax.
Context {A : Type}.
Variable op : pynum -> pynum -> result bool.
Variable key : A -> pynum.

Fixpoint min_max_loop (maxitem : A) (maxval : pynum) (it : list A)
  : result A :=
  match it with
  | [] => Ok maxitem
  | item :: rest =>
      let val := key item in
      c <- op val maxval ;;
      if c then min_max_loop item val rest
      else min_max_loop maxitem maxval rest
  end.

Definition min_max (iterable : list A) : result A :=
  match iterable with
  | [] => Raise ValueError
  | item :: rest => min_max_loop item (key item) rest
  end.
End MinMax.

Definition py_max {A : Type} (iterable : list A) (key : A -> pynum)
  : result A :=
  min_max py_gt key iterable.

Definition py_min {A : Type} (iterable : list A) (key : A -> pynum)
  : result A :=
  min_max py_lt key iterable.

(** [f"{n}"] for an [int]. *)
Definition str_of_int (n : Z) : string :=
  NilZero.string_of_int (Z.to_int n).

End Py.

Import Py.

(** ** Module-level helpers of the script *)

Definition Tributavel : string := "Tributável".
Definition Isento : string := "Isento".
Definition pct_CDI : string := "% CDI".
Definition Pre_fixado : string := "Pré-fixado".

(** [default_tax_rate(tax_rate_old, investment_type)].  The [if]/[elif]
    has no [else]: with any other string [tax_rate_new] is unbound at the
    [return]. *)
Definition default_tax_rate (tax_rate_old : R) (investment_type : string)
  : result (R * R) :=
  if (investment_type =? Tributavel)%string then
    Ok (tax_rate_old, 0.175)
  else if (investment_type =? Isento)%string then
    Ok (0.0, 0.05)
  else Raise UnboundLocalError.

(** [calculate_compound_return(rate, days)]:
    [((1 + rate/100) ** (days/365)) - 1], with [rate] a float and [days]
    an int at both call sites. *)
Definition calculate_compound_return (rate : R) (days : Z) : result pynum :=
  r <- float_truediv rate 100 ;;
  y <- float_truediv (IZR days) 365 ;;
  p <- float_pow (1 + r) y ;;
  Ok (py_sub p (PyFloat 1)).

(** ** First tab: individual analysis *)

Module Tab1.

(** What the calculation block binds. *)
Record outputs : Type := {
  tax_rate_old : R;
  tax_rate_new : R;
  cdi_percentage : R;
  total_rate_gross : R;
  gross_return_period : pynum;
  net_return_old_period : pynum;
  net_return_new_period : pynum;
  final_amount_gross : pynum;
  final_amount_net_old : pynum;
  final_amount_net_new : pynum;
  total_rate_net_old : R;
  total_rate_net_new : R
}.

Section Calculations.
(** The widget values. *)
Variables investment_type_input_selector return_type_input_selector : string.
Variables initial_investment cdi_value_input investment_return_input : R.
Variable term_input : Z.

(** The [if]/[elif] chain under "Tax calculation". *)
Definition tax_calculation : R :=
  if (term_input >=? 720)%Z then 0.15
  else if (term_input >=? 360)%Z then 0.175
  else if (term_input >=? 180)%Z then 0.2
  else 0.225.

(** The branch on the return type: [(cdi_percentage, total_rate_gross)]. *)
Definition rate_interpretation : result (R * R) :=
  if (return_type_input_selector =? pct_CDI)%string then
    q <- float_truediv investment_return_input 100 ;;
    Ok (investment_return_input, q * cdi_value_input)
  else
    q <- float_truediv investment_return_input cdi_value_input ;;
    Ok (q * 100, investment_return_input).

Definition calculations : result outputs :=
  '(tax_rate_old, tax_rate_new) <-
    default_tax_rate tax_calculation investment_type_input_selector ;;
  '(cdi_percentage, total_rate_gross) <- rate_interpretation ;;
  gross_return_period <-
    calculate_compound_return total_rate_gross term_input ;;
  let net_return_old_period :=
    py_mul gross_return_period (PyFloat (1 - tax_rate_old)) in
  let net_return_new_period :=
    py_mul gross_return_period (PyFloat (1 - tax_rate_new)) in
  let final_amount_gross :=
    py_mul (PyFloat initial_investment)
           (py_add (PyFloat 1) gross_return_period) in
  let final_amount_net_old :=
    py_mul (PyFloat initial_investment)
           (py_add (PyFloat 1) net_return_old_period) in
  let final_amount_net_new :=
    py_mul (PyFloat initial_investment)
           (py_add (PyFloat 1) net_return_new_period) in
  let total_rate_net_old := total_rate_gross * (1 - tax_rate_old) in
  let total_rate_net_new := total_rate_gross * (1 - tax_rate_new) in
  Ok {| tax_rate_old := tax_rate_old;
        tax_rate_new := tax_rate_new;
        cdi_percentage := cdi_percentage;
        total_rate_gross := total_rate_gross;
        gross_return_period := gross_return_period;
        net_return_old_period := net_return_old_period;
        net_return_new_period := net_return_new_period;
        final_amount_gross := final_amount_gross;
        final_amount_net_old := final_amount_net_old;
        final_amount_net_new := final_amount_net_new;
        total_rate_net_old := total_rate_net_old;
        total_rate_net_new := total_rate_net_new |}.
End Calculations.

End Tab1.

(** ** Second tab: multiple scenarios *)

Module Tab2.

(** The numbers one pass of the scenario loop binds.  The dictionary
    appended to [scenarios_data] stores [final_gross], [final_net_old],
    [final_net_new], [difference] and [difference_pct] raw, under the keys
    'Valor Final Bruto', 'Valor Final Atual', 'Valor Final Novo',
    'Diferença (R$)' and 'Diferença (%)', next to [Prazo] and [Dias]; the
    other numbers enter it as formatted text, which is display. *)
Record scenario : Type := {
  Prazo : string;
  Dias : Z;
  tax_old : R;
  tax_new : R;
  gross_return_period : pynum;
  net_return_old_period : pynum;
  net_return_new_period : pynum;
  gross_annual_rate : R;
  net_annual_old : R;
  net_annual_new : R;
  cdi_gross : R;
  cdi_net_old : R;
  cdi_net_new : R;
  final_gross : pynum;
  final_net_old : pynum;
  final_net_new : pynum;
  difference : pynum;
  difference_pct : pynum
}.

(** What the [if scenarios_days:] block leaves bound. *)
Record analysis : Type := {
  scenarios_data : list scenario;
  best_scenario : scenario;
  worst_scenario : scenario
}.

(** The preset terms of "Prazos Padrão". *)
Definition standard_days : list Z := [30; 90; 180; 365; 720; 1080]%Z.
Definition standard_labels : list string :=
  ["1 mês"; "3 meses"; "6 meses"; "1 ano"; "2 anos"; "3 anos"]%string.

(** "Determine tax rate for current regime". *)
Definition current_tax_rate (days : Z) : R :=
  if (days >=? 720)%Z then 0.15
  else if (days >=? 360)%Z then 0.175
  else if (days >=? 180)%Z then 0.2
  else 0.225.

(** "Calculate scenario parameters":
    [(scenario_cdi_percentage, scenario_total_rate_gross)]. *)
Definition scenario_parameters (scenario_return_type : string)
    (scenario_investment_return scenario_cdi_value : R) : result (R * R) :=
  if (scenario_return_type =? pct_CDI)%string then
    q <- float_truediv scenario_investment_return 100 ;;
    Ok (scenario_investment_return, q * scenario_cdi_value)
  else
    q <- float_truediv scenario_investment_return scenario_cdi_value ;;
    Ok (q * 100, scenario_investment_return).

Section Scenarios.
Variable scenario_investment_type : string.
Variables scenario_initial_investment scenario_cdi_value : R.
Variable scenario_total_rate_gross : R.
Variable scenario_labels : list string.

(** "Apply investment type logic": [(tax_old, tax_new)]. *)
Definition investment_type_logic (days : Z) : R * R :=
  if (scenario_investment_type =? Tributavel)%string then
    (current_tax_rate days, 0.175)
  else (0.0, 0.05).

(** The body of [for i, days in enumerate(scenarios_days)]. *)
Definition loop_body (i : nat) (days : Z) : result scenario :=
  let '(tax_old, tax_new) := investment_type_logic days in
  gross_return_period <-
    calculate_compound_return scenario_total_rate_gross days ;;
  let net_return_old_period :=
    py_mul gross_return_period (PyFloat (1 - tax_old)) in
  let net_return_new_period :=
    py_mul gross_return_period (PyFloat (1 - tax_new)) in
  let gross_annual_rate := scenario_total_rate_gross in
  let net_annual_old := gross_annual_rate * (1 - tax_old) in
  let net_annual_new := gross_annual_rate * (1 - tax_new) in
  q_gross <- float_truediv gross_annual_rate scenario_cdi_value ;;
  let cdi_gross := q_gross * 100 in
  q_old <- float_truediv net_annual_old scenario_cdi_value ;;
  let cdi_net_old := q_old * 100 in
  q_new <- float_truediv net_annual_new scenario_cdi_value ;;
  let cdi_net_new := q_new * 100 in
  let final_gross :=
    py_mul (PyFloat scenario_initial_investment)
           (py_add (PyFloat 1) gross_return_period) in
  let final_net_old :=
    py_mul (PyFloat scenario_initial_investment)
           (py_add (PyFloat 1) net_return_old_period) in
  let final_net_new :=
    py_mul (PyFloat scenario_initial_investment)
           (py_add (PyFloat 1) net_return_new_period) in
  let difference := py_sub final_net_new final_net_old in
  positive <- py_gt final_net_old (PyFloat 0) ;;
  difference_pct <-
    (if positive : bool then
       q <- py_truediv difference final_net_old ;;
       Ok (py_mul q (PyFloat 100))
     else Ok (PyFloat 0)) ;;
  Ok {| Prazo := match nth_error scenario_labels i with
                 | Some label => label
                 | None => (str_of_int days ++ "d")%string
                 end;
        Dias := days;
        tax_old := tax_old;
        tax_new := tax_new;
        gross_return_period := gross_return_period;
        net_return_old_period := net_return_old_period;
        net_return_new_period := net_return_new_period;
        gross_annual_rate := gross_annual_rate;
        net_annual_old := net_annual_old;
        net_annual_new := net_annual_new;
        cdi_gross := cdi_gross;
        cdi_net_old := cdi_net_old;
        cdi_net_new := cdi_net_new;
        final_gross := final_gross;
        final_net_old := final_net_old;
        final_net_new := final_net_new;
        difference := difference;
        difference_pct := difference_pct |}.

(** The [for] loop: [scenarios_data] grows by one [append] per term and
    the first exception ends it. *)
Fixpoint scenarios_loop (i : nat) (scenarios_days : list Z)
    (scenarios_data : list scenario) : result (list scenario) :=
  match scenarios_days with
  | [] => Ok scenarios_data
  | days :: rest =>
      row <- loop_body i days ;;
      scenarios_loop (S i) rest (scenarios_data ++ [row])
  end.

(** The statement [if scenarios_days: ...]: an empty list is falsy and
    the whole block, loop and selection included, is skipped. *)
Definition scenarios_block (scenarios_days : list Z)
  : result (option analysis) :=
  match scenarios_days with
  | [] => Ok None
  | _ :: _ =>
      scenarios_data <- scenarios_loop 0 scenarios_days [] ;;
      best_scenario <- py_max scenarios_data difference ;;
      worst_scenario <- py_min scenarios_data difference ;;
      Ok (Some {| scenarios_data := scenarios_data;
                  best_scenario := best_scenario;
                  worst_scenario := worst_scenario |})
  end.
End Scenarios.

End Tab2.

(** ** The statements of the specification *)

(** The real number a float stands for; the real part of a complex. *)
Definition real_part (a : pynum) : R := fst (to_complex a).

(** The old-regime rate of a taxable investment of [termDays] days is
    [rate], on each path that resolves it: the bracket chain of either tab,
    and the chain followed by the category step. *)
Definition old_rate_is (termDays : Z) (rate : R) : Prop :=
  Tab1.tax_calculation termDays = rate /\
  Tab2.current_tax_rate termDays = rate /\
  (exists new_rate,
      default_tax_rate (Tab1.tax_calculation termDays) Tributavel
      = Ok (rate, new_rate)) /\
  fst (Tab2.investment_type_logic Tributavel termDays) = rate.

(** The pair [(oldRate, newRate)] of a category at a term, on both tabs. *)
Definition regime_rates_are (category : string) (termDays : Z)
    (oldRate newRate : R) : Prop :=
  default_tax_rate (Tab1.tax_calculation termDays) category
  = Ok (oldRate, newRate) /\
  Tab2.investment_type_logic category termDays = (oldRate, newRate).

(** [x ^ y] for a positive exponent [y], as a complex number given by its
    real and imaginary parts: the real power on a positive base, 0 on the
    base 0, and on a negative base the principal value
    [|x|^y (cos (pi y) + i sin (pi y))]. *)
Definition power (x y : R) : R * R :=
  if Rlt_dec 0 x then (Rpower x y, 0)
  else if Req_dec_T x 0 then (0, 0)
  else (Rpower (- x) y * cos (PI * y), Rpower (- x) y * sin (PI * y)).

(** [compoundReturn]: [(1 + annualRatePercent/100) ^ (days/365) - 1]. *)
Definition compoundReturn (annualRatePercent : R) (days : Z) : R * R :=
  let '(re, im) := power (1 + annualRatePercent / 100) (IZR days / 365) in
  (re - 1, im).

(** The power of the compound return stays within the range of a double:
    its magnitude is below the least one that rounds to infinity. *)
Definition in_double_range (annualRatePercent : R) (days : Z) : Prop :=
  Rpower (Rabs (1 + annualRatePercent / 100)) (IZR days / 365)
  < DBL_OVERFLOW.


(** Net returns and final amounts of one evaluation: each net return is
    the gross return times one minus the rate of its regime, each final
    amount is the principal times one plus the return of its variant; on
    real numbers this is the usual arithmetic. *)
Definition tax_on_return_only (principal taxOld taxNew : R)
    (gross netOld netNew finalGross finalOld finalNew : pynum) : Prop :=
  netOld = py_mul gross (PyFloat (1 - taxOld)) /\
  netNew = py_mul gross (PyFloat (1 - taxNew)) /\
  finalGross = py_mul (PyFloat principal) (py_add (PyFloat 1) gross) /\
  finalOld = py_mul (PyFloat principal) (py_add (PyFloat 1) netOld) /\
  finalNew = py_mul (PyFloat principal) (py_add (PyFloat 1) netNew) /\
  (forall g, gross = PyFloat g ->
     netOld = PyFloat (g * (1 - taxOld)) /\
     netNew = PyFloat (g * (1 - taxNew)) /\
     finalGross = PyFloat (principal * (1 + g)) /\
     finalOld = PyFloat (principal * (1 + g * (1 - taxOld))) /\
     finalNew = PyFloat (principal * (1 + g * (1 - taxNew)))).

(** The signed currency difference of a scenario:
    [finalAmountNew - finalAmountOld]. *)
Definition currency_difference (s : Tab2.scenario) : R :=
  real_part (Tab2.final_net_new s) - real_part (Tab2.final_net_old s).

(** A scenario result as the loop leaves it: both net final amounts are
    floats and the stored difference is their difference. *)
Definition float_row (s : Tab2.scenario) : Prop :=
  (exists new old, Tab2.final_net_new s = PyFloat new /\
                   Tab2.final_net_old s = PyFloat old) /\
  Tab2.difference s = py_sub (Tab2.final_net_new s) (Tab2.final_net_old s).

(** [best] is the first maximal element of [items] for [measure]:
    everything before it is strictly smaller, nothing after it is
    larger. *)
Definition first_maximum {A : Type} (measure : A -> R) (items : list A)
    (best : A) : Prop :=
  exists before after,
    items = before ++ best :: after /\
    (forall x, In x before -> measure x < measure best) /\
    (forall x, In x after -> measure x <= measure best).

(** [worst] is the first minimal element of [items] for [measure]. *)
Definition first_minimum {A : Type} (measure : A -> R) (items : list A)
    (worst : A) : Prop :=
  exists before after,
    items = before ++ worst :: after /\
    (forall x, In x before -> measure worst < measure x) /\
    (forall x, In x after -> measure worst <= measure x).

(** A scenario result built from a gross period return and the two tax
    rates the way a pass of the loop builds it, for examples: a principal
    of 10000 at 100 percent of a CDI of 14.65 percent. *)
Definition row_of_return (label : string) (days : Z)
    (gross taxOld taxNew : R) : Tab2.scenario :=
  {| Tab2.Prazo := label;
     Tab2.Dias := days;
     Tab2.tax_old := taxOld;
     Tab2.tax_new := taxNew;
     Tab2.gross_return_period := PyFloat gross;
     Tab2.net_return_old_period := PyFloat (gross * (1 - taxOld));
     Tab2.net_return_new_period := PyFloat (gross * (1 - taxNew));
     Tab2.gross_annual_rate := 14.65;
     Tab2.net_annual_old := 14.65 * (1 - taxOld);
     Tab2.net_annual_new := 14.65 * (1 - taxNew);
     Tab2.cdi_gross := 14.65 / 14.65 * 100;
     Tab2.cdi_net_old := 14.65 * (1 - taxOld) / 14.65 * 100;
     Tab2.cdi_net_new := 14.65 * (1 - taxNew) / 14.65 * 100;
     Tab2.final_gross := PyFloat (10000 * (1 + gross));
     Tab2.final_net_old := PyFloat (10000 * (1 + gross * (1 - taxOld)));
     Tab2.final_net_new := PyFloat (10000 * (1 + gross * (1 - taxNew)));
     Tab2.difference :=
       PyFloat (10000 * (1 + gross * (1 - taxNew))
                - 10000 * (1 + gross * (1 - taxOld)));
     Tab2.difference_pct :=
       PyFloat ((10000 * (1 + gross * (1 - taxNew))
                 - 10000 * (1 + gross * (1 - taxOld)))
                / (10000 * (1 + gross * (1 - taxOld))) * 100) |}.

(** Two scenarios with the same gain of 5.00 under the new regime,
    followed by one with a loss of 5.00. *)
Definition three_rows : list Tab2.scenario :=
  [ row_of_return "A" 30 0.01 0.225 0.175;
    row_of_return "B" 90 0.01 0.225 0.175;
    row_of_return "C" 720 0.02 0.15 0.175 ].

(** ** Further parts of the script *)

(** [abs(a)]: the absolute value of a float, the modulus of a complex. *)
Definition py_abs (a : pynum) : pynum :=
  match a with
  | PyFloat x => PyFloat (Rabs x)
  | PyComplex re im => PyFloat (sqrt (re * re + im * im))
  end.

(** [s.replace(old, new)] for a one-character [old] and [new]: every
    occurrence of [old] becomes [new]. *)
Fixpoint str_replace (old new : ascii) (s : string) : string :=
  match s with
  | EmptyString => EmptyString
  | String c rest =>
      String (if Ascii.eqb c old then new else c) (str_replace old new rest)
  end.

(** [format_currency(value)].  The text [value_2f] stands for the
    rendering [{value:,.2f}] of the number, which is float formatting; the
    function puts "R$ " in front of it and runs the three replacements. *)
Definition format_currency (value_2f : string) : string :=
  str_replace "X" "."
    (str_replace "." ","
       (str_replace "," "X" ("R$ " ++ value_2f)%string)).

(** *** First tab, from "Informações Tributárias" to the end *)

Module Tab1Results.

(** The numbers and wordings the rest of the tab derives from the
    calculation block. *)
Record summary : Type := {
  faixa : option string;
  difference : pynum;
  melhor : bool;
  difference_pct : pynum;
  delta_inverse : bool;
  economia : pynum;
  tax_old : pynum;
  tax_new : pynum;
  conclusion_text : string;
  percentage_diff : pynum;
  absolute_diff : pynum;
  tax_diff_absolute : pynum;
  tax_diff_percentage : pynum;
  tax_rate_diff_pp : R;
  cdi_net_old : R;
  cdi_net_new : R;
  short_term_warning : option string
}.

Section Results.
Variable investment_type_input_selector : string.
Variables initial_investment cdi_value_input : R.
Variable term_input : Z.
Variable out : Tab1.outputs.

(** "Tax bracket explanation", shown for a taxable investment only. *)
Definition tax_bracket_explanation : option string :=
  if (investment_type_input_selector =? Tributavel)%string then
    Some (if (term_input >=? 720)%Z then "Acima de 720 dias"
          else if (term_input >=? 360)%Z then "361 a 720 dias"
          else if (term_input >=? 180)%Z then "181 a 360 dias"
          else "Até 180 dias")%string
  else None.

(** The statements that compute, in the order the script runs them: the
    "Diferença" metric, the tax amounts of the table and of the chart, the
    "Resumo Executivo", the CDI equivalence of the detailed analysis and
    the short-term warning. *)
Definition results : result summary :=
  let final_amount_gross := Tab1.final_amount_gross out in
  let final_amount_net_old := Tab1.final_amount_net_old out in
  let final_amount_net_new := Tab1.final_amount_net_new out in
  let tax_rate_old := Tab1.tax_rate_old out in
  let tax_rate_new := Tab1.tax_rate_new out in
  let difference := py_sub final_amount_net_new final_amount_net_old in
  melhor <- py_gt difference (PyFloat 0) ;;
  q_metric <-
    py_truediv (py_sub final_amount_net_new final_amount_net_old)
               final_amount_net_old ;;
  let difference_pct := py_mul q_metric (PyFloat 100) in
  delta_inverse <- py_lt difference (PyFloat 0) ;;
  let economia :=
    py_mul (py_sub final_amount_gross (PyFloat initial_investment))
           (PyFloat (tax_rate_old - tax_rate_new)) in
  let tax_old :=
    py_mul (py_sub final_amount_gross (PyFloat initial_investment))
           (PyFloat tax_rate_old) in
  let tax_new :=
    py_mul (py_sub final_amount_gross (PyFloat initial_investment))
           (PyFloat tax_rate_new) in
  vantajoso <- py_gt final_amount_net_new final_amount_net_old ;;
  let conclusion_text :=
    (if vantajoso : bool then "vantajoso" else "desvantajoso")%string in
  q_summary <-
    py_truediv (py_sub final_amount_net_new final_amount_net_old)
               final_amount_net_old ;;
  let percentage_diff := py_abs (py_mul q_summary (PyFloat 100)) in
  let absolute_diff :=
    py_abs (py_sub final_amount_net_new final_amount_net_old) in
  let tax_diff_absolute := py_abs (py_sub tax_old tax_new) in
  tax_positive <- py_gt tax_old (PyFloat 0) ;;
  tax_diff_percentage <-
    (if tax_positive : bool then
       q_tax <- py_truediv (py_sub tax_new tax_old) tax_old ;;
       Ok (py_abs (py_mul q_tax (PyFloat 100)))
     else Ok (PyFloat 0)) ;;
  let tax_rate_diff_pp := Rabs (tax_rate_new - tax_rate_old) * 100 in
  q_old <- float_truediv (Tab1.total_rate_net_old out) cdi_value_input ;;
  q_new <- float_truediv (Tab1.total_rate_net_new out) cdi_value_input ;;
  let short_term_warning :=
    if (term_input <=? 30)%Z then
      Some (if Rlt_dec tax_rate_new tax_rate_old then "redução"
            else "aumento")%string
    else None in
  Ok {| faixa := tax_bracket_explanation;
        difference := difference;
        melhor := melhor;
        difference_pct := difference_pct;
        delta_inverse := delta_inverse;
        economia := economia;
        tax_old := tax_old;
        tax_new := tax_new;
        conclusion_text := conclusion_text;
        percentage_diff := percentage_diff;
        absolute_diff := absolute_diff;
        tax_diff_absolute := tax_diff_absolute;
        tax_diff_percentage := tax_diff_percentage;
        tax_rate_diff_pp := tax_rate_diff_pp;
        cdi_net_old := q_old * 100;
        cdi_net_new := q_new * 100;
        short_term_warning := short_term_warning |}.
End Results.

(** The whole tab: the calculation block, then everything after it. *)
Definition tab (investment_type_input_selector return_type_input_selector
                  : string)
    (initial_investment cdi_value_input investment_return_input : R)
    (term_input : Z) : result (Tab1.outputs * summary) :=
  out <- Tab1.calculations investment_type_input_selector
           return_type_input_selector initial_investment cdi_value_input
           investment_return_input term_input ;;
  res <- results investment_type_input_selector initial_investment
           cdi_value_input term_input out ;;
  Ok (out, res).

End Tab1Results.

(** *** Second tab: the choice of the terms and the whole run *)

Module Tab2Terms.

(** The label of a custom term. *)
Definition custom_label (days : Z) : string :=
  (if (days <? 30)%Z then str_of_int days ++ "d"
   else if (days <? 365)%Z then str_of_int (days / 30) ++ "m"
   else if (days mod 365 >? 0)%Z then
     str_of_int (days / 365) ++ "a"
       ++ str_of_int ((days mod 365) / 30) ++ "m"
   else str_of_int (days / 365) ++ "a")%string.

(** The loop [for i in range(6)] over the values read from the widgets
    [custom_days_0 .. custom_days_5]. *)
Fixpoint custom_loop (reads : list Z) (custom_days : list Z)
    (custom_labels : list string) : list Z * list string :=
  match reads with
  | [] => (custom_days, custom_labels)
  | days :: rest =>
      if (days >? 0)%Z then
        custom_loop rest (custom_days ++ [days])
                    (custom_labels ++ [custom_label days])
      else custom_loop rest custom_days custom_labels
  end.

(** "Prazos Personalizados": [(scenarios_days, scenario_labels)], with
    [number_input i] the value of the widget of index [i]. *)
Definition custom_terms (number_input : nat -> Z) : list Z * list string :=
  let '(custom_days, custom_labels) :=
    custom_loop (map number_input (seq 0 6)) [] [] in
  (firstn 6 custom_days, firstn 6 custom_labels).

(** "Define scenarios based on selection". *)
Definition scenario_terms (scenario_type : string) (number_input : nat -> Z)
  : list Z * list string :=
  if (scenario_type =? "Prazos Padrão")%string then
    (Tab2.standard_days, Tab2.standard_labels)
  else custom_terms number_input.

(** The tab from the scenario parameters to the selection. *)
Definition tab (scenario_investment_type scenario_return_type : string)
    (scenario_initial_investment scenario_cdi_value
       scenario_investment_return : R)
    (scenario_type : string) (number_input : nat -> Z)
  : result (option Tab2.analysis) :=
  '(scenario_cdi_percentage, scenario_total_rate_gross) <-
    Tab2.scenario_parameters scenario_return_type
      scenario_investment_return scenario_cdi_value ;;
  let '(scenarios_days, scenario_labels) :=
    scenario_terms scenario_type number_input in
  Tab2.scenarios_block scenario_investment_type scenario_initial_investment
    scenario_cdi_value scenario_total_rate_gross scenario_labels
    scenarios_days.

End Tab2Terms.

(** *** Second tab: the columns of the table *)

Module Tab2Display.

Local Open Scope string_scope.

(** The keys of the dictionary appended per scenario, in source order:
    the columns of [scenarios_df]. *)
Definition scenario_keys : list string :=
  [ "Prazo"; "Dias"; "IR Atual (%)"; "IR Novo (%)";
    "Retorno Bruto Período"; "Retorno Líq. Atual Período";
    "Retorno Líq. Novo Período";
    "Taxa Bruta Anual"; "Taxa Líq. Atual Anual"; "Taxa Líq. Nova Anual";
    "% CDI Bruto"; "% CDI Líq. Atual"; "% CDI Líq. Novo";
    "Valor Final Bruto"; "Valor Final Atual"; "Valor Final Novo";
    "Diferença (R$)"; "Diferença (%)";
    "Valor Final Bruto (fmt)"; "Valor Final Atual (fmt)";
    "Valor Final Novo (fmt)"; "Diferença (fmt)" ].

Section Columns.
(** The six checkboxes. *)
Variables show_returns show_period show_annual show_cdi show_values
          show_taxes : bool.

(** "Create display dataframe based on selections". *)
Definition display_columns : list string :=
  (["Prazo"]
   ++ (if show_taxes then ["IR Atual (%)"; "IR Novo (%)"] else [])
   ++ (if (show_returns && show_period)%bool then
         ["Retorno Bruto Período"; "Retorno Líq. Atual Período";
          "Retorno Líq. Novo Período"]
       else [])
   ++ (if (show_returns && show_annual)%bool then
         ["Taxa Bruta Anual"; "Taxa Líq. Atual Anual";
          "Taxa Líq. Nova Anual"]
       else [])
   ++ (if show_cdi then
         ["% CDI Bruto"; "% CDI Líq. Atual"; "% CDI Líq. Novo"]
       else [])
   ++ (if show_values then
         ["Valor Final Atual (fmt)"; "Valor Final Novo (fmt)";
          "Diferença (fmt)"]
       else []))%list.

(** [scenarios_df[display_columns]]: a column that is not a key of the
    rows raises [KeyError], modelled by [None]. *)
Definition select_columns : option (list string) :=
  if forallb (fun c => existsb (String.eqb c) scenario_keys) display_columns
  then Some display_columns
  else None.
End Columns.

(** [column_renames] and its use by [rename(columns=...)]: a column found
    in the mapping takes its new name, any other keeps its own. *)
Definition column_renames : list (string * string) :=
  [ ("Valor Final Atual (fmt)", "Valor Final Atual");
    ("Valor Final Novo (fmt)", "Valor Final Novo");
    ("Diferença (fmt)", "Diferença") ].

Definition rename (column : string) : string :=
  match find (fun kv => String.eqb (fst kv) column) column_renames with
  | Some kv => snd kv
  | None => column
  end.

End Tab2Display.

(** *** The statements about the further parts *)

(** The exchange of the two separators: a comma for a point and a point
    for a comma. *)
Definition swap_separators (c : ascii) : ascii :=
  if Ascii.eqb c "," then "."%char
  else if Ascii.eqb c "." then ","%char
  else c.

Fixpoint string_map (f : ascii -> ascii) (s : string) : string :=
  match s with
  | EmptyString => EmptyString
  | String c rest => String (f c) (string_map f rest)
  end.

(** The text holds no capital X. *)
Fixpoint no_X (s : string) : Prop :=
  match s with
  | EmptyString => True
  | String c rest => c <> "X"%char /\ no_X rest
  end.

(** ** Proof support *)

Ltac brackets :=
  unfold Tab1.tax_calculation, Tab2.current_tax_rate;
  repeat match goal with
         | |- context [(?a >=? ?b)%Z] =>
             let H := fresh "H" in
             destruct (Z.geb_spec a b) as [H | H]
         end;
  try lia.

Lemma default_tax_rate_Tributavel (rate : R) :
  default_tax_rate rate Tributavel = Ok (rate, 0.175).
Proof. reflexivity. Qed.

Lemma default_tax_rate_Isento (rate : R) :
  default_tax_rate rate Isento = Ok (0.0, 0.05).
Proof. reflexivity. Qed.

Lemma old_rate_is_bracket (d : Z) (rate : R) :
  Tab1.tax_calculation d = rate ->
  Tab2.current_tax_rate d = rate ->
  old_rate_is d rate.
Proof.
  intros H1 H2. unfold old_rate_is.
  split; [exact H1 | split; [exact H2 | split]].
  - exists 0.175. rewrite H1. apply default_tax_rate_Tributavel.
  - cbn. exact H2.
Qed.

(** ** The tax-bracket resolver *)

(** C1. For a taxable investment and every term of at least one day, the
    old-regime rate is 0.15 from 720 days on, 0.175 from 360 to 719 days,
    0.20 from 180 to 359 days and 0.225 below 180 days. *)
Theorem old_regime_rate_brackets (termDays : Z) :
  (1 <= termDays)%Z ->
  ((720 <= termDays)%Z -> old_rate_is termDays 0.15) /\
  ((360 <= termDays < 720)%Z -> old_rate_is termDays 0.175) /\
  ((180 <= termDays < 360)%Z -> old_rate_is termDays 0.20) /\
  ((termDays < 180)%Z -> old_rate_is termDays 0.225).
Proof.
  intros _.
  split; [| split; [| split]]; intros Hd; apply old_rate_is_bracket;
    brackets; lra.
Qed.

Lemma old_regime_rate_brackets_witness :
  old_rate_is 720 0.15 /\ old_rate_is 360 0.175 /\
  old_rate_is 359 0.20 /\ old_rate_is 1 0.225.
Proof.
  split; [| split; [| split]].
  - apply (old_regime_rate_brackets 720); lia.
  - apply (old_regime_rate_brackets 360); lia.
  - apply (old_regime_rate_brackets 359); lia.
  - apply (old_regime_rate_brackets 1); lia.
Defined.

(** C2. Whatever the term and the bracket rate it resolves to, a taxable
    investment keeps the bracket rate as old rate and gets 0.175 as new
    rate; an exempt investment gets 0.0 as old rate and 0.05 as new rate. *)
Theorem category_override (rate : R) (termDays : Z) :
  default_tax_rate rate Tributavel = Ok (rate, 0.175) /\
  default_tax_rate rate Isento = Ok (0.0, 0.05) /\
  regime_rates_are Tributavel termDays
    (Tab1.tax_calculation termDays) 0.175 /\
  Tab2.current_tax_rate termDays = Tab1.tax_calculation termDays /\
  regime_rates_are Isento termDays 0.0 0.05.
Proof.
  split; [| split; [| split; [| split]]]; try reflexivity.
  all: split; reflexivity.
Qed.

(** C10. The bracket rate never grows with the term: for terms
    [1 <= d1 <= d2] the old-regime rate at [d2] is at most the rate at
    [d1], on both tabs. *)
Theorem old_regime_rate_antitone (d1 d2 : Z) :
  (1 <= d1)%Z -> (d1 <= d2)%Z ->
  Tab1.tax_calculation d2 <= Tab1.tax_calculation d1 /\
  Tab2.current_tax_rate d2 <= Tab2.current_tax_rate d1.
Proof.
  intros _ Hle. split; brackets; lra.
Qed.

Lemma old_regime_rate_antitone_witness :
  Tab1.tax_calculation 400 <= Tab1.tax_calculation 179 /\
  Tab2.current_tax_rate 400 <= Tab2.current_tax_rate 179.
Proof.
  apply (old_regime_rate_antitone 179 400); lia.
Defined.

(** ** The compound-return engine *)

Lemma float_truediv_nonzero (a b : R) :
  b <> 0 -> float_truediv a b = Ok (a / b).
Proof.
  intros Hb. unfold float_truediv. destruct (Req_dec_T b 0); easy.
Qed.

Lemma float_truediv_zero (a : R) :
  float_truediv a 0 = Raise ZeroDivisionError.
Proof.
  unfold float_truediv. destruct (Req_dec_T 0 0); easy.
Qed.

Lemma calculate_compound_return_eq (rate : R) (days : Z) :
  calculate_compound_return rate days =
  (p <- float_pow (1 + rate / 100) (IZR days / 365) ;;
   Ok (py_sub p (PyFloat 1))).
Proof.
  unfold calculate_compound_return.
  rewrite !float_truediv_nonzero by lra. reflexivity.
Qed.

Lemma exponent_positive (days : Z) : (0 < days)%Z -> 0 < IZR days / 365.
Proof.
  intros Hd. apply IZR_lt in Hd. lra.
Qed.

Lemma cos_even_PI (m : Z) : cos (IZR (2 * m) * PI) = 1.
Proof.
  assert (Hnat : forall n : nat, cos (IZR (2 * Z.of_nat n) * PI) = 1).
  { intros n. rewrite mult_IZR, <- INR_IZR_INZ.
    replace (2 * INR n * PI) with (0 + 2 * INR n * PI) by ring.
    rewrite cos_period. apply cos_0. }
  destruct (Z_le_gt_dec 0 m) as [Hm | Hm].
  - rewrite <- (Z2Nat.id m) by lia. apply Hnat.
  - replace (IZR (2 * m) * PI)
      with (- (IZR (2 * Z.of_nat (Z.to_nat (- m))) * PI)).
    + rewrite cos_neg. apply Hnat.
    + rewrite Z2Nat.id by lia. rewrite !mult_IZR, opp_IZR. ring.
Qed.

Lemma cos_PI_integer (k : Z) :
  cos (PI * IZR k) = if Z.odd k then -1 else 1.
Proof.
  rewrite (Z.div_mod k 2) at 1 by lia.
  rewrite Zmod_odd.
  destruct (Z.odd k).
  - rewrite plus_IZR.
    replace (PI * (IZR (2 * (k / 2)) + 1))
      with (IZR (2 * (k / 2)) * PI + PI) by ring.
    rewrite neg_cos, cos_even_PI. reflexivity.
  - rewrite Z.add_0_r, Rmult_comm. apply cos_even_PI.
Qed.

Lemma sin_PI_integer (k : Z) : sin (PI * IZR k) = 0.
Proof.
  apply sin_eq_0_1. exists k. ring.
Qed.

Lemma DBL_OVERFLOW_above (n : nat) :
  (n <= 1023)%nat -> 2 ^ n < DBL_OVERFLOW.
Proof.
  intros Hn. unfold DBL_OVERFLOW.
  apply Rle_lt_trans with (2 ^ 1023).
  - apply Rle_pow; [lra | exact Hn].
  - rewrite pow_IZR. apply IZR_lt. vm_compute. reflexivity.
Qed.


Lemma ln_nonpos (x : R) : x <= 0 -> ln x = 0.
Proof.
  intros Hx. unfold ln.
  destruct (Rlt_dec 0 x) as [Hpos | _]; [| reflexivity].
  exfalso. apply (Rlt_irrefl 0). apply Rlt_le_trans with x; assumption.
Qed.

Lemma Rpower_zero_base (y : R) : Rpower 0 y = 1.
Proof.
  unfold Rpower. rewrite ln_nonpos by lra. rewrite Rmult_0_r. apply exp_0.
Qed.

Lemma libm_pow_in_range (x y : R) :
  Rpower x y < DBL_OVERFLOW -> libm_pow x y = Ok (Rpower x y).
Proof.
  intros H. unfold libm_pow.
  destruct (Rlt_dec (Rpower x y) DBL_OVERFLOW); [reflexivity | contradiction].
Qed.

Lemma libm_pow_overflow (x y : R) :
  ~ Rpower x y < DBL_OVERFLOW -> libm_pow x y = Raise OverflowError.
Proof.
  intros H. unfold libm_pow.
  destruct (Rlt_dec (Rpower x y) DBL_OVERFLOW); [contradiction | reflexivity].
Qed.

(** Within the range of a double the power of the runtime is the power
    of the formula, for every base and every positive exponent. *)
Lemma float_pow_power (v w : R) :
  0 < w -> Rpower (Rabs v) w < DBL_OVERFLOW ->
  exists p, float_pow v w = Ok p /\ to_complex p = power v w /\
            (0 <= v -> p = PyFloat (fst (power v w))).
Proof.
  intros Hw Hrange. unfold float_pow, power.
  destruct (Req_dec_T w 0) as [Hw0 | _]; [lra |].
  destruct (Req_dec_T v 0) as [Hv0 | Hv0].
  - destruct (Rlt_dec w 0) as [Hneg | _]; [lra |].
    destruct (Rlt_dec 0 v) as [Hpos | _]; [lra |].
    exists (PyFloat 0). repeat split.
  - destruct (Rlt_dec v 0) as [Hneg | Hnneg].
    + destruct (Rlt_dec 0 v) as [Hpos | _]; [lra |].
      rewrite Rabs_left in Hrange by exact Hneg.
      rewrite libm_pow_in_range by exact Hrange. cbn [bind].
      unfold is_integral.
      destruct (Req_dec_T w (IZR (Int_part w))) as [Hint | Hfrac].
      * revert Hint. generalize (Int_part w). intros k Hint. subst w.
        eexists. split; [reflexivity | split; [| lra]].
        cbn [to_complex]. rewrite cos_PI_integer, sin_PI_integer.
        destruct (Z.odd k); f_equal; ring.
      * eexists. split; [reflexivity | split; [reflexivity | lra]].
    + destruct (Rlt_dec 0 v) as [Hpos | Hnpos]; [| lra].
      rewrite Rabs_right in Hrange by lra.
      rewrite libm_pow_in_range by exact Hrange. cbn [bind].
      exists (PyFloat (Rpower v w)). repeat split.
Qed.

Lemma float_pow_overflow (v w : R) :
  0 < w -> ~ Rpower (Rabs v) w < DBL_OVERFLOW ->
  float_pow v w = Raise OverflowError.
Proof.
  intros Hw Hrange. unfold float_pow.
  destruct (Req_dec_T w 0) as [Hw0 | _]; [lra |].
  destruct (Req_dec_T v 0) as [-> | Hv0].
  - exfalso. apply Hrange. rewrite Rabs_R0, Rpower_zero_base.
    apply (DBL_OVERFLOW_above 0). lia.
  - destruct (Rlt_dec v 0) as [Hneg | Hnneg].
    + rewrite Rabs_left in Hrange by exact Hneg.
      rewrite libm_pow_overflow by exact Hrange. reflexivity.
    + rewrite Rabs_right in Hrange by lra.
      rewrite libm_pow_overflow by exact Hrange. reflexivity.
Qed.

(** Rates between -100 and 100 percent over at most 365000 days stay
    within the range. *)
Lemma in_double_range_ordinary (rate : R) (days : Z) :
  -100 <= rate <= 100 -> (0 < days <= 365000)%Z ->
  in_double_range rate days.
Proof.
  intros Hrate [Hd Hmax]. unfold in_double_range.
  assert (Hy : 0 < IZR days / 365 <= 1000).
  { apply IZR_lt in Hd. apply IZR_le in Hmax. lra. }
  rewrite Rabs_right by lra.
  apply Rle_lt_trans with (2 ^ 1000); [| apply DBL_OVERFLOW_above; lia].
  destruct (Req_dec_T (1 + rate / 100) 0) as [-> | Hnz].
  - rewrite Rpower_zero_base. apply pow_R1_Rle. lra.
  - rewrite <- (Rpower_pow 1000 2) by lra.
    change (INR 1000) with (INR 1000).
    assert (HINR : INR 1000 = 1000) by (rewrite INR_IZR_INZ; reflexivity).
    rewrite HINR. unfold Rpower.
    assert (Hln2 : 0 < ln 2) by (rewrite <- ln_1; apply ln_increasing; lra).
    assert (Hlnb : ln (1 + rate / 100) <= ln 2).
    { destruct (Req_dec_T (1 + rate / 100) 2) as [-> | Hne]; [lra |].
      apply Rlt_le, ln_increasing; lra. }
    assert (Hle : IZR days / 365 * ln (1 + rate / 100) <= 1000 * ln 2) by nra.
    destruct Hle as [Hlt | Heq].
    + apply Rlt_le, exp_increasing, Hlt.
    + rewrite Heq. lra.
Qed.

(** The compound return is computed for a positive term whenever the power
    stays within the range, and its value is that of the formula: a float
    when the base is not negative. *)
Lemma compound_return_value (rate : R) (days : Z) :
  (0 < days)%Z -> in_double_range rate days ->
  exists v, calculate_compound_return rate days = Ok v /\
            to_complex v = compoundReturn rate days /\
            (-100 <= rate -> v = PyFloat (fst (compoundReturn rate days))).
Proof.
  intros Hd Hrange. apply exponent_positive in Hd.
  rewrite calculate_compound_return_eq. unfold compoundReturn.
  destruct (float_pow_power (1 + rate / 100) _ Hd Hrange)
    as (p & Hp & Hc & Hreal).
  rewrite Hp. cbn [bind]. eexists. split; [reflexivity |].
  destruct (power (1 + rate / 100) (IZR days / 365)) as [re im].
  split.
  - destruct p as [x | pre pim]; cbn in Hc |- *; inversion Hc; subst;
      f_equal; ring.
  - intros Hrate. rewrite Hreal by lra. reflexivity.
Qed.

Lemma compound_return_out_of_range (rate : R) (days : Z) :
  (0 < days)%Z -> ~ in_double_range rate days ->
  calculate_compound_return rate days = Raise OverflowError.
Proof.
  intros Hd Hrange. apply exponent_positive in Hd.
  rewrite calculate_compound_return_eq.
  rewrite float_pow_overflow by assumption. reflexivity.
Qed.




Lemma in_double_range_zero_rate (days : Z) : in_double_range 0 days.
Proof.
  unfold in_double_range. replace (1 + 0 / 100) with 1 by lra.
  rewrite Rabs_R1. unfold Rpower. rewrite ln_1, Rmult_0_r, exp_0.
  apply (DBL_OVERFLOW_above 0). lia.
Qed.

(** A rate of zero returns exactly zero, for any positive term. *)
Example zero_rate_zero_return (days : Z) :
  (0 < days)%Z -> calculate_compound_return 0 days = Ok (PyFloat 0).
Proof.
  intros Hd.
  destruct (compound_return_value 0 days Hd (in_double_range_zero_rate days))
    as (v & Hv & _ & Hreal).
  rewrite Hv, Hreal by lra. do 2 f_equal.
  unfold compoundReturn, power.
  destruct (Rlt_dec 0 (1 + 0 / 100)); [| lra]. cbn [fst].
  replace (1 + 0 / 100) with 1 by lra.
  unfold Rpower. rewrite ln_1, Rmult_0_r, exp_0. lra.
Qed.

(** Over one year of 365 days the period return is the annual rate. *)
Example one_year_return :
  calculate_compound_return 14.65 365 = Ok (PyFloat 0.1465).
Proof.
  destruct (compound_return_value 14.65 365) as (v & Hv & _ & Hreal);
    [lia | apply in_double_range_ordinary; [lra | lia] |].
  rewrite Hv, Hreal by lra. do 2 f_equal.
  unfold compoundReturn, power.
  destruct (Rlt_dec 0 (1 + 14.65 / 100)); [| lra]. cbn [fst].
  replace (IZR 365 / 365) with 1 by lra.
  rewrite Rpower_1 by lra. lra.
Qed.

Lemma float_pow_zero_base (w : R) : 0 < w -> float_pow 0 w = Ok (PyFloat 0).
Proof.
  intros Hw. unfold float_pow.
  destruct (Req_dec_T w 0); [lra |].
  destruct (Req_dec_T 0 0); [| lra].
  destruct (Rlt_dec w 0); [lra | reflexivity].
Qed.

Lemma calculate_compound_return_total_loss (days : Z) :
  (0 < days)%Z -> calculate_compound_return (-100) days = Ok (PyFloat (-1)).
Proof.
  intros Hd. rewrite calculate_compound_return_eq.
  replace (1 + -100 / 100) with 0 by lra.
  rewrite float_pow_zero_base by (apply exponent_positive; exact Hd).
  cbn. f_equal. f_equal. lra.
Qed.

(** The only exceptions the compound return can end in. *)
Lemma calculate_compound_return_outcome (rate : R) (days : Z) :
  (exists v, calculate_compound_return rate days = Ok v) \/
  calculate_compound_return rate days = Raise ZeroDivisionError \/
  calculate_compound_return rate days = Raise OverflowError.
Proof.
  rewrite calculate_compound_return_eq. unfold float_pow, libm_pow.
  repeat match goal with
         | |- context [if ?c then _ else _] => destruct c
         end; cbn; eauto.
Qed.

(** The rate the compound return receives from the widgets, whose minimum
    is 0 for the CDI and for the return, is never negative. *)
Lemma total_rate_gross_nonneg
    (return_type : string) (cdi_value investment_return pct gross : R) :
  0 <= cdi_value -> 0 <= investment_return ->
  Tab1.rate_interpretation return_type cdi_value investment_return
  = Ok (pct, gross) ->
  0 <= gross.
Proof.
  intros Hcdi Hret. unfold Tab1.rate_interpretation.
  destruct (return_type =? pct_CDI)%string.
  - rewrite float_truediv_nonzero by lra. cbn. intros H. inversion H; subst.
    apply Rmult_le_pos; [| exact Hcdi].
    apply Rmult_le_pos; [exact Hret |].
    apply Rlt_le, Rinv_0_lt_compat. lra.
  - destruct (float_truediv investment_return cdi_value); [| discriminate].
    cbn. intros H. inversion H; subst. exact Hret.
Qed.




(** ** The CDI-equivalence conversion *)

(** C5, on the code. With a CDI of zero the conversion of a pre-fixed rate
    to a percentage of the CDI raises [ZeroDivisionError] on both tabs,
    and with it the calculation block of the first tab.  No pass of the
    scenario loop returns a row either, whatever the rate and the return
    type, nor does the scenario block on a non-empty term list: each ends
    in [ZeroDivisionError], or in the [OverflowError] of a power out of
    range, which comes first; within the range it is
    [ZeroDivisionError].  No sentinel is produced. *)
Theorem cdi_conversion_zero_cdi (annualRate : R) :
  Tab1.rate_interpretation Pre_fixado 0 annualRate
  = Raise ZeroDivisionError /\
  (forall principal term,
      Tab1.calculations Tributavel Pre_fixado principal 0 annualRate term
      = Raise ZeroDivisionError) /\
  Tab2.scenario_parameters Pre_fixado annualRate 0
  = Raise ZeroDivisionError /\
  (forall investment_type principal labels i days,
      exists e,
        Tab2.loop_body investment_type principal 0 annualRate labels i days
        = Raise e /\
        (e = ZeroDivisionError \/ e = OverflowError) /\
        ((0 < days)%Z -> in_double_range annualRate days ->
         e = ZeroDivisionError)) /\
  (forall investment_type principal labels days rest,
      exists e,
        Tab2.scenarios_block investment_type principal 0 annualRate labels
          (days :: rest)
        = Raise e /\
        (e = ZeroDivisionError \/ e = OverflowError) /\
        ((0 < days)%Z -> in_double_range annualRate days ->
         e = ZeroDivisionError)).
Proof.
  assert (Hconv : Tab1.rate_interpretation Pre_fixado 0 annualRate
                  = Raise ZeroDivisionError).
  { unfold Tab1.rate_interpretation. cbn.
    rewrite float_truediv_zero. reflexivity. }
  assert (Hbody : forall investment_type principal labels i days,
             exists e,
               Tab2.loop_body investment_type principal 0 annualRate
                 labels i days = Raise e /\
               (e = ZeroDivisionError \/ e = OverflowError) /\
               ((0 < days)%Z -> in_double_range annualRate days ->
                e = ZeroDivisionError)).
  { intros investment_type principal labels i days.
    unfold Tab2.loop_body.
    destruct (Tab2.investment_type_logic investment_type days)
      as [tax_old tax_new].
    destruct (calculate_compound_return_outcome annualRate days)
      as [[v Hv] | [Hraise | Hraise]].
    - rewrite Hv. cbn [bind]. rewrite float_truediv_zero.
      exists ZeroDivisionError. auto.
    - rewrite Hraise. exists ZeroDivisionError. auto.
    - rewrite Hraise. exists OverflowError.
      split; [reflexivity | split; [auto |]].
      intros Hd Hrange.
      destruct (compound_return_value annualRate days Hd Hrange)
        as (v & Hv & _).
      rewrite Hv in Hraise. discriminate Hraise. }
  split; [exact Hconv | split; [| split; [| split; [exact Hbody |]]]].
  - intros principal term. unfold Tab1.calculations.
    rewrite default_tax_rate_Tributavel. cbn [bind].
    rewrite Hconv. reflexivity.
  - unfold Tab2.scenario_parameters. cbn.
    rewrite float_truediv_zero. reflexivity.
  - intros investment_type principal labels days rest.
    destruct (Hbody investment_type principal labels 0%nat days)
      as (e & He & Hkind).
    exists e. split; [| exact Hkind].
    unfold Tab2.scenarios_block. cbn [Tab2.scenarios_loop].
    rewrite He. reflexivity.
Qed.

Lemma cdi_conversion_zero_cdi_witness :
  exists e,
    Tab2.loop_body Tributavel 10000 0 14 [] 0 30 = Raise e /\
    e = ZeroDivisionError.
Proof.
  destruct (proj1 (proj2 (proj2 (proj2 (cdi_conversion_zero_cdi 14))))
              Tributavel 10000 (@nil string) 0%nat 30%Z)
    as (e & He & _ & Hz).
  exists e. split; [exact He |].
  apply Hz; [lia |]. apply in_double_range_ordinary; [lra | lia].
Defined.

(** C9. A pre-fixed rate converted to a percentage of a positive CDI and
    read back as a percentage of the CDI gives the rate again, on both
    tabs: the pre-fixed branch yields [(R / C) * 100], and the "% CDI"
    branch rebuilds [R] from it as [(pct / 100) * C]. *)
Theorem cdi_percent_round_trip (flatRate cdiAnnualRate : R) :
  0 < cdiAnnualRate ->
  let pct := flatRate / cdiAnnualRate * 100 in
  Tab1.rate_interpretation Pre_fixado cdiAnnualRate flatRate
  = Ok (pct, flatRate) /\
  Tab1.rate_interpretation pct_CDI cdiAnnualRate pct = Ok (pct, flatRate) /\
  Tab2.scenario_parameters Pre_fixado flatRate cdiAnnualRate
  = Ok (pct, flatRate) /\
  Tab2.scenario_parameters pct_CDI pct cdiAnnualRate = Ok (pct, flatRate) /\
  pct / 100 * cdiAnnualRate = flatRate.
Proof.
  intros HC pct.
  assert (Hback : pct / 100 * cdiAnnualRate = flatRate)
    by (unfold pct; field; lra).
  unfold Tab1.rate_interpretation, Tab2.scenario_parameters. cbn.
  rewrite !float_truediv_nonzero by lra. cbn.
  rewrite Hback. repeat split.
Qed.

Lemma cdi_percent_round_trip_witness :
  let pct := 14 / 14.65 * 100 in
  Tab1.rate_interpretation Pre_fixado 14.65 14 = Ok (pct, 14) /\
  Tab1.rate_interpretation pct_CDI 14.65 pct = Ok (pct, 14) /\
  Tab2.scenario_parameters Pre_fixado 14 14.65 = Ok (pct, 14) /\
  Tab2.scenario_parameters pct_CDI pct 14.65 = Ok (pct, 14) /\
  pct / 100 * 14.65 = 14.
Proof.
  apply (cdi_percent_round_trip 14 14.65). lra.
Defined.

(** ** Net returns and final amounts *)

Lemma tax_on_return_only_intro (principal taxOld taxNew : R) (gross : pynum) :
  tax_on_return_only principal taxOld taxNew gross
    (py_mul gross (PyFloat (1 - taxOld)))
    (py_mul gross (PyFloat (1 - taxNew)))
    (py_mul (PyFloat principal) (py_add (PyFloat 1) gross))
    (py_mul (PyFloat principal)
       (py_add (PyFloat 1) (py_mul gross (PyFloat (1 - taxOld)))))
    (py_mul (PyFloat principal)
       (py_add (PyFloat 1) (py_mul gross (PyFloat (1 - taxNew))))).
Proof.
  unfold tax_on_return_only.
  do 5 (split; [reflexivity |]).
  intros g ->. cbn. repeat split.
Qed.

(** The calculation block of the first tab succeeds on a known category
    and a positive term, once the rate is interpreted and its power stays
    within the range of a double. *)
Lemma tab1_calculations_run
    (investment_type return_type : string)
    (initial_investment cdi_value investment_return pct rate : R)
    (term : Z) :
  investment_type = Tributavel \/ investment_type = Isento ->
  Tab1.rate_interpretation return_type cdi_value investment_return
  = Ok (pct, rate) ->
  (0 < term)%Z -> in_double_range rate term ->
  exists out,
    Tab1.calculations investment_type return_type initial_investment
      cdi_value investment_return term = Ok out.
Proof.
  intros Htype Hrate Hterm Hrange. unfold Tab1.calculations.
  assert (Htax : exists rates,
             default_tax_rate (Tab1.tax_calculation term) investment_type
             = Ok rates)
    by (destruct Htype as [-> | ->]; eexists; reflexivity).
  destruct Htax as [[tax_old tax_new] ->]. cbn [bind].
  rewrite Hrate. cbn [bind].
  destruct (compound_return_value rate term Hterm Hrange) as (v & -> & _).
  cbn [bind]. eexists. reflexivity.
Qed.

(** The rate of either return type, for a return and a CDI between 0 and
    100 percent. *)
Lemma rate_interpretation_ordinary
    (return_type : string) (cdi_value investment_return : R) :
  return_type = pct_CDI \/ cdi_value <> 0 ->
  0 <= cdi_value <= 100 -> 0 <= investment_return <= 100 ->
  exists pct rate,
    Tab1.rate_interpretation return_type cdi_value investment_return
    = Ok (pct, rate) /\
    0 <= rate <= 100.
Proof.
  intros Hcdi Hc Hr. unfold Tab1.rate_interpretation.
  destruct (return_type =? pct_CDI)%string eqn:Hrt.
  - rewrite float_truediv_nonzero by lra. do 2 eexists.
    split; [reflexivity |]. nra.
  - destruct Hcdi as [-> | Hnz]; [discriminate Hrt |].
    rewrite float_truediv_nonzero by exact Hnz. do 2 eexists.
    split; [reflexivity |]. lra.
Qed.

Lemma tab1_calculations_total
    (investment_type return_type : string)
    (initial_investment cdi_value investment_return : R) (term : Z) :
  investment_type = Tributavel \/ investment_type = Isento ->
  return_type = pct_CDI \/ cdi_value <> 0 ->
  0 <= cdi_value <= 100 -> 0 <= investment_return <= 100 ->
  (0 < term <= 365000)%Z ->
  exists out,
    Tab1.calculations investment_type return_type initial_investment
      cdi_value investment_return term = Ok out.
Proof.
  intros Htype Hcdi Hc Hr Hterm.
  destruct (rate_interpretation_ordinary return_type cdi_value
              investment_return Hcdi Hc Hr) as (pct & rate & Hrate & Hrange).
  apply (tab1_calculations_run _ _ _ _ _ pct rate _ Htype Hrate);
    [lia |].
  apply in_double_range_ordinary; [lra | exact Hterm].
Qed.

(** A pass of the scenario loop succeeds on a positive term as soon as the
    CDI is not zero, the rate is at least -100 percent and its power stays
    within the range of a double. *)
Lemma loop_body_total
    (investment_type : string) (principal cdi_value total_rate_gross : R)
    (labels : list string) (i : nat) (days : Z) :
  cdi_value <> 0 -> -100 <= total_rate_gross -> (0 < days)%Z ->
  in_double_range total_rate_gross days ->
  exists row,
    Tab2.loop_body investment_type principal cdi_value total_rate_gross
      labels i days = Ok row.
Proof.
  intros Hcdi Hrate Hdays Hrange. unfold Tab2.loop_body.
  destruct (Tab2.investment_type_logic investment_type days)
    as [tax_old tax_new].
  destruct (compound_return_value total_rate_gross days Hdays Hrange)
    as (v & Hv & _ & Hreal).
  rewrite Hv, (Hreal Hrate). cbn [bind].
  rewrite !float_truediv_nonzero by exact Hcdi.
  cbn [bind py_mul py_add py_sub py_gt].
  match goal with
  | |- context [Rlt_dec 0 ?x] => destruct (Rlt_dec 0 x) as [Hpos | Hneg]
  end.
  - cbn [bind py_truediv]. rewrite float_truediv_nonzero by lra.
    eexists. reflexivity.
  - eexists. reflexivity.
Qed.

Lemma loop_body_ordinary
    (investment_type : string) (principal cdi_value total_rate_gross : R)
    (labels : list string) (i : nat) (days : Z) :
  cdi_value <> 0 -> -100 <= total_rate_gross <= 100 ->
  (0 < days <= 365000)%Z ->
  exists row,
    Tab2.loop_body investment_type principal cdi_value total_rate_gross
      labels i days = Ok row.
Proof.
  intros Hcdi Hrate Hdays.
  apply loop_body_total; [exact Hcdi | lra | lia |].
  apply in_double_range_ordinary; assumption.
Qed.

(** C8. In every evaluation that completes, on either tab, the net return
    of each regime is the gross period return times one minus the tax rate
    of that regime, and the final amount of each variant (gross, old, new)
    is the principal times one plus the return of that variant: the
    principal itself is never taxed.  The rates are the ones the category
    step resolved and the gross return is the compound return of the
    term. *)
Theorem net_returns_and_final_amounts :
  (forall investment_type return_type principal cdi_value investment_return
          term out,
      Tab1.calculations investment_type return_type principal cdi_value
        investment_return term = Ok out ->
      default_tax_rate (Tab1.tax_calculation term) investment_type
      = Ok (Tab1.tax_rate_old out, Tab1.tax_rate_new out) /\
      calculate_compound_return (Tab1.total_rate_gross out) term
      = Ok (Tab1.gross_return_period out) /\
      tax_on_return_only principal
        (Tab1.tax_rate_old out) (Tab1.tax_rate_new out)
        (Tab1.gross_return_period out)
        (Tab1.net_return_old_period out) (Tab1.net_return_new_period out)
        (Tab1.final_amount_gross out)
        (Tab1.final_amount_net_old out) (Tab1.final_amount_net_new out)) /\
  (forall investment_type principal cdi_value total_rate_gross labels i days
          row,
      Tab2.loop_body investment_type principal cdi_value total_rate_gross
        labels i days = Ok row ->
      Tab2.investment_type_logic investment_type days
      = (Tab2.tax_old row, Tab2.tax_new row) /\
      calculate_compound_return total_rate_gross days
      = Ok (Tab2.gross_return_period row) /\
      tax_on_return_only principal (Tab2.tax_old row) (Tab2.tax_new row)
        (Tab2.gross_return_period row)
        (Tab2.net_return_old_period row) (Tab2.net_return_new_period row)
        (Tab2.final_gross row)
        (Tab2.final_net_old row) (Tab2.final_net_new row)).
Proof.
  split.
  - intros investment_type return_type principal cdi_value investment_return
      term out. unfold Tab1.calculations.
    destruct (default_tax_rate _ _) as [[tax_old tax_new] |];
      [| discriminate].
    destruct (Tab1.rate_interpretation _ _ _) as [[pct gross_rate] |];
      [| discriminate].
    cbn [bind].
    destruct (calculate_compound_return gross_rate term) as [gross |] eqn:Hg;
      [| discriminate].
    cbn [bind]. intros Hout. inversion Hout; subst out; clear Hout.
    cbn. split; [reflexivity | split; [exact Hg |]].
    apply tax_on_return_only_intro.
  - intros investment_type principal cdi_value total_rate_gross labels i days
      row. unfold Tab2.loop_body.
    destruct (Tab2.investment_type_logic investment_type days)
      as [tax_old tax_new].
    destruct (calculate_compound_return total_rate_gross days)
      as [gross |]; [| discriminate].
    cbn [bind].
    repeat (match goal with
            | |- context [float_truediv ?a ?b] =>
                destruct (float_truediv a b); [| discriminate]
            end; cbn [bind]).
    destruct (py_gt _ _) as [positive |]; [| discriminate]. cbn [bind].
    match goal with
    | |- context [bind ?m _] => destruct m; [| discriminate]
    end.
    cbn [bind]. intros Hrow. inversion Hrow; subst row; clear Hrow.
    cbn. split; [reflexivity | split; [reflexivity |]].
    apply tax_on_return_only_intro.
Qed.

Lemma net_returns_and_final_amounts_witness :
  (exists out,
     Tab1.calculations Tributavel pct_CDI 10000 14.65 100 360 = Ok out /\
     default_tax_rate (Tab1.tax_calculation 360) Tributavel
     = Ok (Tab1.tax_rate_old out, Tab1.tax_rate_new out) /\
     calculate_compound_return (Tab1.total_rate_gross out) 360
     = Ok (Tab1.gross_return_period out) /\
     tax_on_return_only 10000
       (Tab1.tax_rate_old out) (Tab1.tax_rate_new out)
       (Tab1.gross_return_period out)
       (Tab1.net_return_old_period out) (Tab1.net_return_new_period out)
       (Tab1.final_amount_gross out)
       (Tab1.final_amount_net_old out) (Tab1.final_amount_net_new out)) /\
  (exists row,
     Tab2.loop_body Isento 10000 14.65 14.65 Tab2.standard_labels 0 30
     = Ok row /\
     Tab2.investment_type_logic Isento 30
     = (Tab2.tax_old row, Tab2.tax_new row) /\
     calculate_compound_return 14.65 30 = Ok (Tab2.gross_return_period row) /\
     tax_on_return_only 10000 (Tab2.tax_old row) (Tab2.tax_new row)
       (Tab2.gross_return_period row)
       (Tab2.net_return_old_period row) (Tab2.net_return_new_period row)
       (Tab2.final_gross row)
       (Tab2.final_net_old row) (Tab2.final_net_new row)).
Proof.
  split.
  - destruct (tab1_calculations_total Tributavel pct_CDI 10000 14.65 100 360)
      as [out Hout];
      [left; reflexivity | left; reflexivity | lra | lra | lia |].
    exists out. split; [exact Hout |].
    exact (proj1 net_returns_and_final_amounts _ _ _ _ _ _ _ Hout).
  - destruct (loop_body_ordinary Isento 10000 14.65 14.65
                Tab2.standard_labels 0 30) as [row Hrow]; [lra | lra | lia |].
    exists row. split; [exact Hrow |].
    exact (proj2 net_returns_and_final_amounts _ _ _ _ _ _ _ _ Hrow).
Defined.

(** ** The scenario aggregator *)

(** C6. On the empty term list the loop leaves the empty result sequence
    and the guarded block ends at once, with no analysis, no best or worst
    scenario and no exception, for every setting of the other inputs (a
    CDI of zero included, on which any pass of the loop would raise). *)
Theorem empty_term_list
    (investment_type : string) (principal cdi_value total_rate_gross : R)
    (labels : list string) :
  Tab2.scenarios_loop investment_type principal cdi_value total_rate_gross
    labels 0 [] [] = Ok [] /\
  Tab2.scenarios_block investment_type principal cdi_value total_rate_gross
    labels [] = Ok None.
Proof.
  split; reflexivity.
Qed.

(** Without the guard the selection would fault on the empty sequence. *)
Lemma selection_of_nothing (key : Tab2.scenario -> pynum) :
  py_max [] key = Raise ValueError /\ py_min [] key = Raise ValueError.
Proof.
  split; reflexivity.
Qed.

Section Selection.
Context {A : Type}.
Variable key : A -> pynum.
Variable measure : A -> R.
(** [beyond x y]: the key [x] replaces the current key [y]. *)
Variable beyond : R -> R -> Prop.
Variable op : pynum -> pynum -> result bool.

Hypothesis op_floats : forall x y,
  (op (PyFloat x) (PyFloat y) = Ok true /\ beyond x y) \/
  (op (PyFloat x) (PyFloat y) = Ok false /\ ~ beyond x y).
Hypothesis beyond_trans : forall x y z,
  beyond x y -> beyond y z -> beyond x z.
Hypothesis beyond_covers : forall x y z,
  beyond x y -> ~ beyond z y -> beyond x z.

Lemma min_max_loop_first (rest : list A) :
  forall (before : list A) (current : A) (after : list A),
    Forall (fun x => key x = PyFloat (measure x)) (current :: rest) ->
    (forall x, In x before -> beyond (measure current) (measure x)) ->
    (forall x, In x after -> ~ beyond (measure x) (measure current)) ->
    exists chosen before' after',
      min_max_loop op key current (key current) rest = Ok chosen /\
      before ++ current :: after ++ rest = before' ++ chosen :: after' /\
      (forall x, In x before' -> beyond (measure chosen) (measure x)) /\
      (forall x, In x after' -> ~ beyond (measure x) (measure chosen)).
Proof.
  induction rest as [| item rest IH]; intros before current after Hkeys Hb Ha.
  - exists current, before, after. rewrite app_nil_r. auto.
  - inversion Hkeys as [| ? ? Hcur Hrest]; subst.
    inversion Hrest as [| ? ? Hitem Hrest']; subst.
    cbn [min_max_loop]. rewrite Hitem, Hcur.
    destruct (op_floats (measure item) (measure current))
      as [[-> Hbey] | [-> Hnot]]; cbn [bind].
    + rewrite <- Hitem.
      destruct (IH (before ++ current :: after) item [])
        as (chosen & b' & a' & Hrun & Hsplit & Hb' & Ha').
      * constructor; assumption.
      * intros x Hx. apply in_app_or in Hx.
        destruct Hx as [Hx | [<- | Hx]].
        -- eapply beyond_trans; [exact Hbey | apply Hb, Hx].
        -- exact Hbey.
        -- eapply beyond_covers; [exact Hbey | apply Ha, Hx].
      * intros x [].
      * exists chosen, b', a'. rewrite <- Hsplit.
        repeat split; trivial.
        rewrite <- app_assoc. reflexivity.
    + rewrite <- Hcur.
      destruct (IH before current (after ++ [item]))
        as (chosen & b' & a' & Hrun & Hsplit & Hb' & Ha').
      * constructor; assumption.
      * exact Hb.
      * intros x Hx. apply in_app_or in Hx.
        destruct Hx as [Hx | [<- | []]]; [apply Ha, Hx | exact Hnot].
      * exists chosen, b', a'. rewrite <- Hsplit.
        repeat split; trivial.
        rewrite <- app_assoc. reflexivity.
Qed.

Lemma min_max_first (items : list A) :
  items <> [] ->
  Forall (fun x => key x = PyFloat (measure x)) items ->
  exists chosen before after,
    min_max op key items = Ok chosen /\
    items = before ++ chosen :: after /\
    (forall x, In x before -> beyond (measure chosen) (measure x)) /\
    (forall x, In x after -> ~ beyond (measure x) (measure chosen)).
Proof.
  intros Hne Hkeys. destruct items as [| first rest]; [congruence |].
  destruct (min_max_loop_first rest [] first [] Hkeys)
    as (chosen & b' & a' & Hrun & Hsplit & Hb' & Ha').
  - intros x [].
  - intros x [].
  - exists chosen, b', a'. repeat split; trivial.
Qed.
End Selection.

Lemma py_max_first {A : Type} (key : A -> pynum) (measure : A -> R)
    (items : list A) :
  items <> [] ->
  Forall (fun x => key x = PyFloat (measure x)) items ->
  exists best, py_max items key = Ok best /\ first_maximum measure items best.
Proof.
  intros Hne Hkeys.
  destruct (min_max_first key measure (fun x y => y < x) py_gt)
    with (items := items)
    as (best & before & after & Hrun & Hsplit & Hb & Ha); trivial.
  - intros x y. cbn. destruct (Rlt_dec y x); auto.
  - intros x y z Hxy Hyz. lra.
  - intros x y z Hxy Hzy. lra.
  - exists best. split; [exact Hrun |].
    exists before, after. repeat split; trivial.
    intros x Hx. apply Rnot_lt_le, Ha, Hx.
Qed.

Lemma py_min_first {A : Type} (key : A -> pynum) (measure : A -> R)
    (items : list A) :
  items <> [] ->
  Forall (fun x => key x = PyFloat (measure x)) items ->
  exists worst,
    py_min items key = Ok worst /\ first_minimum measure items worst.
Proof.
  intros Hne Hkeys.
  destruct (min_max_first key measure (fun x y => x < y) py_lt)
    with (items := items)
    as (worst & before & after & Hrun & Hsplit & Hb & Ha); trivial.
  - intros x y. cbn. destruct (Rlt_dec x y); auto.
  - intros x y z Hxy Hyz. lra.
  - intros x y z Hxy Hzy. lra.
  - exists worst. split; [exact Hrun |].
    exists before, after. repeat split; trivial.
    intros x Hx. apply Rnot_lt_le, Ha, Hx.
Qed.

Lemma float_row_key (s : Tab2.scenario) :
  float_row s -> Tab2.difference s = PyFloat (currency_difference s).
Proof.
  intros [(new & old & Hnew & Hold) Hdiff].
  unfold currency_difference. rewrite Hdiff, Hnew, Hold. reflexivity.
Qed.

Lemma float_rows_keys (data : list Tab2.scenario) :
  Forall float_row data ->
  Forall (fun s => Tab2.difference s = PyFloat (currency_difference s)) data.
Proof.
  intros Hrows. eapply Forall_impl; [| exact Hrows].
  intros s. apply float_row_key.
Qed.

(** Two scenarios tie for the largest difference: the earlier one is the
    best scenario; the worst is the only one with a loss. *)
Example three_rows_selection :
  py_max three_rows Tab2.difference
  = Ok (row_of_return "A" 30 0.01 0.225 0.175) /\
  py_min three_rows Tab2.difference
  = Ok (row_of_return "C" 720 0.02 0.15 0.175).
Proof.
  unfold py_max, py_min, three_rows. cbn.
  repeat match goal with
         | |- context [Rlt_dec ?a ?b] => destruct (Rlt_dec a b); try lra
         end.
  cbn. split; reflexivity.
Qed.

(** A pass of the loop that completes leaves a scenario of floats: on a
    complex gross return the test [final_net_old > 0] raises. *)
Lemma loop_body_float_row
    (investment_type : string) (principal cdi_value total_rate_gross : R)
    (labels : list string) (i : nat) (days : Z) (row : Tab2.scenario) :
  Tab2.loop_body investment_type principal cdi_value total_rate_gross
    labels i days = Ok row ->
  float_row row.
Proof.
  unfold Tab2.loop_body.
  destruct (Tab2.investment_type_logic investment_type days)
    as [tax_old tax_new].
  destruct (calculate_compound_return total_rate_gross days)
    as [[g | re im] |]; [| | discriminate]; cbn [bind];
    repeat (match goal with
            | |- context [float_truediv ?a ?b] =>
                destruct (float_truediv a b); [| discriminate]
            end; cbn [bind]);
    cbn [py_mul py_add py_gt to_complex bind]; [| discriminate].
  match goal with
  | |- context [bind ?m _] => destruct m; [| discriminate]
  end.
  cbn [bind]. intros Hrow. inversion Hrow; subst row; clear Hrow.
  split; cbn; eauto.
Qed.

Lemma scenarios_loop_float_rows
    (investment_type : string) (principal cdi_value total_rate_gross : R)
    (labels : list string) (scenarios_days : list Z) :
  forall (i : nat) (acc data : list Tab2.scenario),
    Tab2.scenarios_loop investment_type principal cdi_value total_rate_gross
      labels i scenarios_days acc = Ok data ->
    Forall float_row acc ->
    Forall float_row data /\
    List.length data = (List.length acc + List.length scenarios_days)%nat.
Proof.
  induction scenarios_days as [| days rest IH]; intros i acc data; cbn.
  - intros Hrun Hacc. inversion Hrun; subst. split; [exact Hacc | lia].
  - destruct (Tab2.loop_body _ _ _ _ _ i days) as [row |] eqn:Hbody;
      [| discriminate].
    cbn [bind]. intros Hrun Hacc.
    apply IH in Hrun.
    + destruct Hrun as [Hrows Hlen]. split; [exact Hrows |].
      rewrite Hlen, length_app. cbn. lia.
    + apply Forall_app. split; [exact Hacc |].
      constructor; [| constructor].
      eapply loop_body_float_row, Hbody.
Qed.

Lemma scenarios_loop_total
    (investment_type : string) (principal cdi_value rate : R)
    (labels : list string) (scenarios_days : list Z) :
  cdi_value <> 0 -> -100 <= rate ->
  Forall (fun days => (0 < days)%Z /\ in_double_range rate days)
    scenarios_days ->
  forall (i : nat) (acc : list Tab2.scenario),
  exists data,
    Tab2.scenarios_loop investment_type principal cdi_value rate labels
      i scenarios_days acc = Ok data.
Proof.
  intros Hcdi Hrate Hdays.
  induction Hdays as [| days rest [Hd Hrange] _ IH]; intros i acc; cbn.
  - exists acc. reflexivity.
  - destruct (loop_body_total investment_type principal cdi_value rate
                labels i days Hcdi Hrate Hd Hrange) as [row ->].
    cbn [bind]. apply IH.
Qed.

Lemma scenarios_loop_ordinary
    (investment_type : string) (principal cdi_value rate : R)
    (labels : list string) (scenarios_days : list Z) :
  cdi_value <> 0 -> -100 <= rate <= 100 ->
  Forall (fun days => (0 < days <= 365000)%Z) scenarios_days ->
  exists data,
    Tab2.scenarios_loop investment_type principal cdi_value rate labels
      0 scenarios_days [] = Ok data.
Proof.
  intros Hcdi Hrate Hdays.
  assert (Hlow : -100 <= rate) by lra.
  apply (scenarios_loop_total investment_type principal cdi_value rate
           labels scenarios_days Hcdi Hlow).
  eapply Forall_impl; [| exact Hdays].
  intros days Hd. cbv beta in Hd. split; [lia |].
  apply in_double_range_ordinary; assumption.
Qed.

(** C7. On every non-empty sequence of scenario results the selection
    returns, as best, the first element of maximal signed difference
    [finalAmountNew - finalAmountOld] and, as worst, the first element of
    minimal difference: every element before the chosen one is strictly
    worse, so a tie goes to the earliest element.  The scenario block
    performs exactly this selection: whenever its loop returns the
    scenarios of a non-empty term list, the block returns them with their
    first maximal element as best scenario and their first minimal
    element as worst scenario. *)
Theorem best_worst_selection :
  (forall data : list Tab2.scenario,
      data <> [] ->
      Forall float_row data ->
      exists best worst,
        py_max data Tab2.difference = Ok best /\
        py_min data Tab2.difference = Ok worst /\
        first_maximum currency_difference data best /\
        first_minimum currency_difference data worst) /\
  (forall investment_type principal cdi_value rate labels scenarios_days
          data,
      scenarios_days <> [] ->
      Tab2.scenarios_loop investment_type principal cdi_value rate labels
        0 scenarios_days [] = Ok data ->
      exists best worst,
        Tab2.scenarios_block investment_type principal cdi_value rate labels
          scenarios_days
        = Ok (Some {| Tab2.scenarios_data := data;
                      Tab2.best_scenario := best;
                      Tab2.worst_scenario := worst |}) /\
        py_max data Tab2.difference = Ok best /\
        py_min data Tab2.difference = Ok worst /\
        first_maximum currency_difference data best /\
        first_minimum currency_difference data worst).
Proof.
  assert (Hsel : forall data : list Tab2.scenario,
             data <> [] -> Forall float_row data ->
             exists best worst,
               py_max data Tab2.difference = Ok best /\
               py_min data Tab2.difference = Ok worst /\
               first_maximum currency_difference data best /\
               first_minimum currency_difference data worst).
  { intros data Hne Hrows. apply float_rows_keys in Hrows.
    destruct (py_max_first _ _ data Hne Hrows) as (best & Hmax & Hbest).
    destruct (py_min_first _ _ data Hne Hrows) as (worst & Hmin & Hworst).
    exists best, worst. auto. }
  split; [exact Hsel |].
  intros investment_type principal cdi_value rate labels scenarios_days data
    Hne Hloop.
  pose proof (scenarios_loop_float_rows _ _ _ _ _ _ _ _ _ Hloop
                (Forall_nil _)) as [Hrows Hlen].
  assert (Hdata : data <> []).
  { intros ->. destruct scenarios_days; [congruence | discriminate Hlen]. }
  destruct (Hsel data Hdata Hrows) as (best & worst & Hmax & Hmin & Hb & Hw).
  exists best, worst.
  split; [| auto].
  unfold Tab2.scenarios_block.
  destruct scenarios_days as [| d rest]; [congruence |].
  rewrite Hloop. cbn [bind]. rewrite Hmax. cbn [bind]. rewrite Hmin.
  reflexivity.
Qed.

Lemma best_worst_selection_witness :
  (exists best worst,
      py_max three_rows Tab2.difference = Ok best /\
      py_min three_rows Tab2.difference = Ok worst /\
      first_maximum currency_difference three_rows best /\
      first_minimum currency_difference three_rows worst) /\
  (exists data best worst,
      Tab2.scenarios_loop Tributavel 10000 14.65 14.65 Tab2.standard_labels
        0 Tab2.standard_days [] = Ok data /\
      Tab2.scenarios_block Tributavel 10000 14.65 14.65 Tab2.standard_labels
        Tab2.standard_days
      = Ok (Some {| Tab2.scenarios_data := data;
                    Tab2.best_scenario := best;
                    Tab2.worst_scenario := worst |}) /\
      first_maximum currency_difference data best /\
      first_minimum currency_difference data worst).
Proof.
  split.
  - apply (proj1 best_worst_selection three_rows).
    + discriminate.
    + repeat constructor; cbn; eauto.
  - destruct (scenarios_loop_ordinary Tributavel 10000 14.65 14.65
                Tab2.standard_labels Tab2.standard_days)
      as [data Hdata]; [lra | lra | repeat constructor; lia |].
    destruct (proj2 best_worst_selection Tributavel 10000 14.65 14.65
                Tab2.standard_labels Tab2.standard_days data)
      as (best & worst & Hblock & _ & _ & Hb & Hw);
      [discriminate | exact Hdata |].
    exists data, best, worst. auto.
Defined.

(** The selection as the block performs it: whenever the block completes
    with an analysis, its best and worst scenarios are the first maximal
    and the first minimal element of the scenarios it computed, one per
    term. *)
Corollary scenarios_block_selection
    (investment_type : string) (principal cdi_value total_rate_gross : R)
    (labels : list string) (scenarios_days : list Z) (a : Tab2.analysis) :
  Tab2.scenarios_block investment_type principal cdi_value total_rate_gross
    labels scenarios_days = Ok (Some a) ->
  List.length (Tab2.scenarios_data a) = List.length scenarios_days /\
  first_maximum currency_difference
    (Tab2.scenarios_data a) (Tab2.best_scenario a) /\
  first_minimum currency_difference
    (Tab2.scenarios_data a) (Tab2.worst_scenario a).
Proof.
  unfold Tab2.scenarios_block.
  destruct scenarios_days as [| days rest]; [discriminate |].
  destruct (Tab2.scenarios_loop _ _ _ _ _ 0 (days :: rest) [])
    as [data |] eqn:Hloop; [| discriminate].
  cbn [bind].
  apply scenarios_loop_float_rows in Hloop; [| constructor].
  destruct Hloop as [Hrows Hlen].
  assert (Hne : data <> []) by (intros ->; discriminate Hlen).
  apply float_rows_keys in Hrows.
  destruct (py_max_first _ _ data Hne Hrows) as (best & -> & Hbest).
  destruct (py_min_first _ _ data Hne Hrows) as (worst & -> & Hworst).
  cbn [bind]. intros Ha. inversion Ha; subst a. cbn. auto.
Qed.



(** * Further properties of the script *)

(** ** The compound return as a function *)

Lemma compound_return_real (rate : R) (days : Z) :
  -100 < rate -> (0 < days)%Z -> in_double_range rate days ->
  calculate_compound_return rate days
  = Ok (PyFloat (Rpower (1 + rate / 100) (IZR days / 365) - 1)).
Proof.
  intros Hrate Hd Hrange.
  destruct (compound_return_value rate days Hd Hrange)
    as (v & Hv & _ & Hreal).
  rewrite Hv, Hreal by lra. do 2 f_equal.
  unfold compoundReturn, power.
  destruct (Rlt_dec 0 (1 + rate / 100)); [reflexivity | lra].
Qed.

(** A compound return that is returned had its power within the range. *)
Lemma compound_return_ok_range (rate : R) (days : Z) (v : pynum) :
  (0 < days)%Z -> calculate_compound_return rate days = Ok v ->
  in_double_range rate days.
Proof.
  intros Hd Hv. unfold in_double_range.
  destruct (Rlt_dec (Rpower (Rabs (1 + rate / 100)) (IZR days / 365))
              DBL_OVERFLOW) as [Hin | Hout]; [exact Hin |].
  rewrite (compound_return_out_of_range rate days Hd Hout) in Hv.
  discriminate Hv.
Qed.

Lemma Rpower_gt_1 (x y : R) : 1 < x -> 0 < y -> 1 < Rpower x y.
Proof.
  intros Hx Hy. unfold Rpower. rewrite <- exp_0.
  apply exp_increasing. apply Rmult_lt_0_compat; [exact Hy |].
  rewrite <- ln_1. apply ln_increasing; lra.
Qed.

Lemma Rpower_lt_1 (x y : R) : 0 < x < 1 -> 0 < y -> Rpower x y < 1.
Proof.
  intros Hx Hy. unfold Rpower. rewrite <- exp_0.
  apply exp_increasing.
  assert (Hln : ln x < 0) by (rewrite <- ln_1; apply ln_increasing; lra).
  nra.
Qed.

Lemma Rpower_pos (x y : R) : 0 < Rpower x y.
Proof. unfold Rpower. apply exp_pos. Qed.

Lemma Rpower_one (y : R) : Rpower 1 y = 1.
Proof. unfold Rpower. rewrite ln_1, Rmult_0_r. apply exp_0. Qed.

(** The value of a returned compound return for a rate of at least -100
    percent, over the reals. *)
Lemma period_return_sign (rate : R) (days : Z) (v : pynum) :
  -100 <= rate -> (0 < days)%Z ->
  calculate_compound_return rate days = Ok v ->
  exists g,
    v = PyFloat g /\
    -1 <= g /\
    (0 < rate -> 0 < g) /\ (rate = 0 -> g = 0) /\ (rate < 0 -> g < 0) /\
    (-100 < rate -> -1 < g).
Proof.
  intros Hrate Hd Hv. pose proof (exponent_positive days Hd) as Hy.
  pose proof (compound_return_ok_range rate days v Hd Hv) as Hrange.
  destruct (Req_dec_T rate (-100)) as [-> | Hne].
  - rewrite calculate_compound_return_total_loss in Hv by exact Hd.
    inversion Hv. exists (-1). repeat split; try lra.
  - rewrite compound_return_real in Hv by (try assumption; lra).
    inversion Hv. eexists. split; [reflexivity |].
    pose proof (Rpower_pos (1 + rate / 100) (IZR days / 365)) as Hpos.
    split; [lra |]. split; [| split; [| split]].
    + intros Hr. pose proof (Rpower_gt_1 (1 + rate / 100) _ ltac:(lra) Hy).
      lra.
    + intros ->. replace (1 + 0 / 100) with 1 by lra.
      rewrite Rpower_one. lra.
    + intros Hr.
      pose proof (Rpower_lt_1 (1 + rate / 100) _ ltac:(lra) Hy). lra.
    + intros _. lra.
Qed.



(** X2. A term of zero days returns exactly zero at every rate, the rates
    of -100 percent and below included. *)
Theorem compound_return_zero_days (rate : R) :
  calculate_compound_return rate 0 = Ok (PyFloat 0).
Proof.
  rewrite calculate_compound_return_eq. unfold float_pow.
  destruct (Req_dec_T (IZR 0 / 365) 0) as [_ | Hnz]; [| lra].
  cbn. do 2 f_equal. lra.
Qed.

(** X3. Whenever the compound return of a rate of at least -100 percent
    over a positive term is returned, it is a float that is never below
    -1, is not negative for a rate that is not negative, and is not
    positive for a rate that is not positive. *)
Theorem compound_return_sign (rate : R) (days : Z) (v : pynum) :
  -100 <= rate -> (0 < days)%Z ->
  calculate_compound_return rate days = Ok v ->
  exists g,
    v = PyFloat g /\
    -1 <= g /\ (0 <= rate -> 0 <= g) /\ (rate <= 0 -> g <= 0).
Proof.
  intros Hrate Hd Hv.
  destruct (period_return_sign rate days v Hrate Hd Hv)
    as (g & Hg & Hlow & Hpos & Hzero & Hneg & _).
  exists g. split; [exact Hg | split; [exact Hlow | split]].
  - intros Hr. destruct (Req_dec_T rate 0) as [H0 | H0];
      [rewrite (Hzero H0); lra | apply Rlt_le, Hpos; lra].
  - intros Hr. destruct (Req_dec_T rate 0) as [H0 | H0];
      [rewrite (Hzero H0); lra | apply Rlt_le, Hneg; lra].
Qed.

Lemma compound_return_sign_witness :
  exists g,
    PyFloat (Rpower (1 + 14.65 / 100) (IZR 30 / 365) - 1) = PyFloat g /\
    -1 <= g /\ (0 <= 14.65 -> 0 <= g) /\ (14.65 <= 0 -> g <= 0).
Proof.
  apply (compound_return_sign 14.65 30); [lra | lia |].
  apply compound_return_real; [lra | lia |].
  apply in_double_range_ordinary; [lra | lia].
Defined.

(** X4. Read over the reals, a returned period return does not shrink
    when the term grows at a rate that is not negative, nor when the rate
    grows at a positive term. *)
Theorem compound_return_monotone :
  (forall rate d1 d2 g1 g2,
      0 <= rate -> (0 < d1 <= d2)%Z ->
      calculate_compound_return rate d1 = Ok (PyFloat g1) ->
      calculate_compound_return rate d2 = Ok (PyFloat g2) ->
      g1 <= g2) /\
  (forall r1 r2 days g1 g2,
      -100 <= r1 <= r2 -> (0 < days)%Z ->
      calculate_compound_return r1 days = Ok (PyFloat g1) ->
      calculate_compound_return r2 days = Ok (PyFloat g2) ->
      g1 <= g2).
Proof.
  split.
  - intros rate d1 d2 g1 g2 Hrate [Hd1 Hd12] H1 H2.
    assert (Hd2 : (0 < d2)%Z) by lia.
    pose proof (compound_return_ok_range _ _ _ Hd1 H1) as R1.
    pose proof (compound_return_ok_range _ _ _ Hd2 H2) as R2.
    rewrite compound_return_real in H1 by (assumption || lra).
    rewrite compound_return_real in H2 by (assumption || lra || lia).
    inversion H1. inversion H2.
    destruct (Req_dec_T rate 0) as [-> | Hpos].
    + replace (1 + 0 / 100) with 1 by lra. rewrite !Rpower_one. lra.
    + destruct (Z.eq_dec d1 d2) as [-> | Hne]; [lra |].
      assert (IZR d1 / 365 < IZR d2 / 365)
        by (assert (d1 < d2)%Z by lia; apply IZR_lt in H; lra).
      pose proof (Rpower_lt (1 + rate / 100) (IZR d1 / 365) (IZR d2 / 365)
                    ltac:(lra) H).
      lra.
  - intros r1 r2 days g1 g2 [Hr1 Hr12] Hd H1 H2.
    destruct (period_return_sign r1 days _ Hr1 Hd H1)
      as (x1 & Hx1 & Hlow1 & _).
    assert (Hr2 : -100 <= r2) by lra.
    destruct (period_return_sign r2 days _ Hr2 Hd H2)
      as (x2 & Hx2 & _ & _ & _ & _ & Hstrict).
    inversion Hx1; subst x1. inversion Hx2; subst x2.
    destruct (Req_dec_T r1 r2) as [-> | Hne].
    + rewrite H1 in H2. inversion H2. lra.
    + destruct (Req_dec_T r1 (-100)) as [-> | Hn100].
      * rewrite calculate_compound_return_total_loss in H1 by exact Hd.
        inversion H1. specialize (Hstrict ltac:(lra)). lra.
      * pose proof (compound_return_ok_range _ _ _ Hd H1) as R1.
        pose proof (compound_return_ok_range _ _ _ Hd H2) as R2.
        rewrite compound_return_real in H1 by (assumption || lra).
        rewrite compound_return_real in H2 by (assumption || lra).
        inversion H1. inversion H2.
        pose proof (Rlt_Rpower_l (1 + r1 / 100) (1 + r2 / 100)
                      (IZR days / 365) (exponent_positive days Hd)
                      ltac:(lra)).
        lra.
Qed.

Lemma compound_return_monotone_witness :
  Rpower (1 + 14.65 / 100) (IZR 30 / 365) - 1
  <= Rpower (1 + 14.65 / 100) (IZR 360 / 365) - 1.
Proof.
  apply (proj1 compound_return_monotone 14.65 30%Z 360%Z); [lra | lia | |];
    apply compound_return_real; try lra; try lia;
    apply in_double_range_ordinary; try lra; lia.
Defined.

(** X5. Read over the reals, compounding composes over consecutive
    terms: whenever the returns of [d1] days, of [d2] days and of
    [d1 + d2] days at one rate of at least -100 percent are returned,
    growing by the first and then by the second is growing by the
    third. *)
Theorem compound_return_additive (rate : R) (d1 d2 : Z) (g1 g2 g12 : R) :
  -100 <= rate -> (0 < d1)%Z -> (0 < d2)%Z ->
  calculate_compound_return rate d1 = Ok (PyFloat g1) ->
  calculate_compound_return rate d2 = Ok (PyFloat g2) ->
  calculate_compound_return rate (d1 + d2) = Ok (PyFloat g12) ->
  (1 + g1) * (1 + g2) = 1 + g12.
Proof.
  intros Hrate Hd1 Hd2 H1 H2 H12.
  destruct (Req_dec_T rate (-100)) as [-> | Hne].
  - rewrite calculate_compound_return_total_loss in H1, H2, H12 by lia.
    inversion H1. inversion H2. inversion H12. lra.
  - pose proof (compound_return_ok_range _ _ _ Hd1 H1) as R1.
    pose proof (compound_return_ok_range _ _ _ Hd2 H2) as R2.
    assert (Hd12 : (0 < d1 + d2)%Z) by lia.
    pose proof (compound_return_ok_range _ _ _ Hd12 H12) as R12.
    rewrite compound_return_real in H1, H2, H12
      by (assumption || lra || lia).
    inversion H1. inversion H2. inversion H12.
    replace (IZR (d1 + d2) / 365) with (IZR d1 / 365 + IZR d2 / 365)
      by (rewrite plus_IZR; lra).
    rewrite Rpower_plus. ring.
Qed.

Lemma compound_return_additive_witness :
  (1 + (Rpower (1 + 14.65 / 100) (IZR 30 / 365) - 1))
  * (1 + (Rpower (1 + 14.65 / 100) (IZR 60 / 365) - 1))
  = 1 + (Rpower (1 + 14.65 / 100) (IZR (30 + 60) / 365) - 1).
Proof.
  apply (compound_return_additive 14.65 30 60); try lra; try lia;
    apply compound_return_real; try lra; try lia;
    apply in_double_range_ordinary; try lra; lia.
Defined.

(** ** Categories and the two copies of the calculation *)

Lemma tab1_calculations_inv
    (investment_type return_type : string)
    (principal cdi_value investment_return : R) (term : Z)
    (out : Tab1.outputs) :
  Tab1.calculations investment_type return_type principal cdi_value
    investment_return term = Ok out ->
  exists tax_old tax_new pct rate gross,
    default_tax_rate (Tab1.tax_calculation term) investment_type
    = Ok (tax_old, tax_new) /\
    Tab1.rate_interpretation return_type cdi_value investment_return
    = Ok (pct, rate) /\
    calculate_compound_return rate term = Ok gross /\
    out = {| Tab1.tax_rate_old := tax_old;
             Tab1.tax_rate_new := tax_new;
             Tab1.cdi_percentage := pct;
             Tab1.total_rate_gross := rate;
             Tab1.gross_return_period := gross;
             Tab1.net_return_old_period :=
               py_mul gross (PyFloat (1 - tax_old));
             Tab1.net_return_new_period :=
               py_mul gross (PyFloat (1 - tax_new));
             Tab1.final_amount_gross :=
               py_mul (PyFloat principal) (py_add (PyFloat 1) gross);
             Tab1.final_amount_net_old :=
               py_mul (PyFloat principal)
                 (py_add (PyFloat 1) (py_mul gross (PyFloat (1 - tax_old))));
             Tab1.final_amount_net_new :=
               py_mul (PyFloat principal)
                 (py_add (PyFloat 1) (py_mul gross (PyFloat (1 - tax_new))));
             Tab1.total_rate_net_old := rate * (1 - tax_old);
             Tab1.total_rate_net_new := rate * (1 - tax_new) |}.
Proof.
  unfold Tab1.calculations.
  destruct (default_tax_rate _ _) as [[tax_old tax_new] |]; [| discriminate].
  destruct (Tab1.rate_interpretation _ _ _) as [[pct rate] |];
    [| discriminate].
  cbn [bind].
  destruct (calculate_compound_return rate term) as [gross |] eqn:Hg;
    [| discriminate].
  cbn [bind]. intros Hout. inversion Hout; subst out; clear Hout.
  exists tax_old, tax_new, pct, rate, gross. repeat split. exact Hg.
Qed.

Lemma default_tax_rate_range (rate : R) (investment_type : string)
    (tax_old tax_new : R) :
  default_tax_rate rate investment_type = Ok (tax_old, tax_new) ->
  (investment_type = Tributavel /\ tax_old = rate /\ tax_new = 0.175) \/
  (investment_type = Isento /\ tax_old = 0 /\ tax_new = 0.05).
Proof.
  unfold default_tax_rate.
  destruct (String.eqb_spec investment_type Tributavel) as [-> | _].
  - intros H. inversion H. left. repeat split.
  - destruct (String.eqb_spec investment_type Isento) as [-> | _];
      [| discriminate].
    intros H. inversion H. right. repeat split. lra.
Qed.

Lemma tax_calculation_range (term : Z) :
  0.15 <= Tab1.tax_calculation term <= 0.225.
Proof. brackets; lra. Qed.

(** X6. A category string other than 'Tributável' and 'Isento' is not
    handled alike by the two tabs: [default_tax_rate], and with it the
    calculation of the first tab, ends in [UnboundLocalError], while the
    second tab applies the rates of an exempt investment. *)
Theorem unknown_category (investment_type : string) :
  investment_type <> Tributavel -> investment_type <> Isento ->
  (forall rate,
      default_tax_rate rate investment_type = Raise UnboundLocalError) /\
  (forall return_type principal cdi_value investment_return term,
      Tab1.calculations investment_type return_type principal cdi_value
        investment_return term = Raise UnboundLocalError) /\
  (forall days,
      Tab2.investment_type_logic investment_type days = (0.0, 0.05)).
Proof.
  intros Ht Hi.
  apply String.eqb_neq in Ht. apply String.eqb_neq in Hi.
  assert (Hd : forall rate,
             default_tax_rate rate investment_type = Raise UnboundLocalError).
  { intros rate. unfold default_tax_rate. rewrite Ht, Hi. reflexivity. }
  split; [exact Hd | split].
  - intros. unfold Tab1.calculations. rewrite Hd. reflexivity.
  - intros days. unfold Tab2.investment_type_logic. rewrite Ht. reflexivity.
Qed.

Lemma unknown_category_witness :
  (forall rate, default_tax_rate rate "LCI" = Raise UnboundLocalError) /\
  (forall return_type principal cdi_value investment_return term,
      Tab1.calculations "LCI" return_type principal cdi_value
        investment_return term = Raise UnboundLocalError) /\
  (forall days, Tab2.investment_type_logic "LCI" days = (0.0, 0.05)).
Proof.
  apply (unknown_category "LCI"); discriminate.
Defined.

Lemma tab1_amounts_bounds
    (investment_type return_type : string)
    (principal cdi_value investment_return : R) (term : Z)
    (out : Tab1.outputs) :
  0 <= principal -> 0 <= cdi_value -> 0 <= investment_return ->
  (0 < term)%Z ->
  Tab1.calculations investment_type return_type principal cdi_value
    investment_return term = Ok out ->
  exists gross net_old net_new,
    Tab1.final_amount_gross out = PyFloat gross /\
    Tab1.final_amount_net_old out = PyFloat net_old /\
    Tab1.final_amount_net_new out = PyFloat net_new /\
    principal <= net_old.
Proof.
  intros HP Hcdi Hret Hterm Hcalc.
  apply tab1_calculations_inv in Hcalc.
  destruct Hcalc as (to & tn & pct & rate & gross & Htax & Hrate & Hg & ->).
  cbn [Tab1.final_amount_gross Tab1.final_amount_net_old
       Tab1.final_amount_net_new].
  pose proof (tax_calculation_range term) as Hrange.
  assert (Hto : 0 <= to <= 0.225).
  { apply default_tax_rate_range in Htax.
    destruct Htax as [(_ & -> & ->) | (_ & -> & ->)]; lra. }
  apply total_rate_gross_nonneg in Hrate; [| exact Hcdi | exact Hret].
  assert (Hlow : -100 <= rate) by lra.
  destruct (period_return_sign rate term gross Hlow Hterm Hg)
    as (g & -> & _ & Hpos & Hzero & _).
  assert (Hg0 : 0 <= g).
  { destruct (Req_dec_T rate 0) as [Hr | Hr];
      [rewrite (Hzero Hr); lra | apply Rlt_le, Hpos; lra]. }
  cbn [py_mul py_add]. do 3 eexists.
  split; [reflexivity | split; [reflexivity | split; [reflexivity |]]].
  assert (Hpg : 0 <= principal * g) by (apply Rmult_le_pos; lra).
  nra.
Qed.

(** X7. In a calculation of the first tab that completes on a principal,
    a CDI and a return that are not negative (the bounds of the widgets)
    and a positive term, the amounts are floats in the order
    principal <= net final amount <= gross final amount for both regimes,
    the old rate lies between 0 and 0.225 and the new one between 0.05
    and 0.175. *)
Theorem tab1_amounts_ordered
    (investment_type return_type : string)
    (principal cdi_value investment_return : R) (term : Z)
    (out : Tab1.outputs) :
  0 <= principal -> 0 <= cdi_value -> 0 <= investment_return ->
  (0 < term)%Z ->
  Tab1.calculations investment_type return_type principal cdi_value
    investment_return term = Ok out ->
  0 <= Tab1.tax_rate_old out <= 0.225 /\
  0.05 <= Tab1.tax_rate_new out <= 0.175 /\
  exists gross net_old net_new,
    Tab1.final_amount_gross out = PyFloat gross /\
    Tab1.final_amount_net_old out = PyFloat net_old /\
    Tab1.final_amount_net_new out = PyFloat net_new /\
    principal <= net_old <= gross /\
    principal <= net_new <= gross.
Proof.
  intros HP Hcdi Hret Hterm Hcalc.
  apply tab1_calculations_inv in Hcalc.
  destruct Hcalc as (to & tn & pct & rate & gross & Htax & Hrate & Hg & ->).
  cbn [Tab1.tax_rate_old Tab1.tax_rate_new Tab1.final_amount_gross
       Tab1.final_amount_net_old Tab1.final_amount_net_new].
  pose proof (tax_calculation_range term) as Hrange.
  assert (Hto : 0 <= to <= 0.225 /\ 0.05 <= tn <= 0.175).
  { apply default_tax_rate_range in Htax.
    destruct Htax as [(_ & -> & ->) | (_ & -> & ->)]; lra. }
  apply total_rate_gross_nonneg in Hrate; [| exact Hcdi | exact Hret].
  assert (Hlow : -100 <= rate) by lra.
  destruct (period_return_sign rate term gross Hlow Hterm Hg)
    as (g & -> & _ & Hpos & Hzero & _).
  assert (Hg0 : 0 <= g).
  { destruct (Req_dec_T rate 0) as [Hr | Hr];
      [rewrite (Hzero Hr); lra | apply Rlt_le, Hpos; lra]. }
  split; [tauto | split; [tauto |]].
  cbn [py_mul py_add].
  do 3 eexists.
  split; [reflexivity | split; [reflexivity | split; [reflexivity |]]].
  destruct Hto as [[? ?] [? ?]].
  assert (Hpg : 0 <= principal * g) by (apply Rmult_le_pos; lra).
  split; split; nra.
Qed.

Lemma tab1_amounts_ordered_witness :
  exists out,
    Tab1.calculations Isento Pre_fixado 10000 14.65 14 30 = Ok out /\
    0 <= Tab1.tax_rate_old out <= 0.225 /\
    0.05 <= Tab1.tax_rate_new out <= 0.175 /\
    exists gross net_old net_new,
      Tab1.final_amount_gross out = PyFloat gross /\
      Tab1.final_amount_net_old out = PyFloat net_old /\
      Tab1.final_amount_net_new out = PyFloat net_new /\
      10000 <= net_old <= gross /\
      10000 <= net_new <= gross.
Proof.
  destruct (tab1_calculations_total Isento Pre_fixado 10000 14.65 14 30)
    as [out Hout]; [right; reflexivity | right; lra | lra | lra | lia |].
  exists out. split; [exact Hout |].
  apply (tab1_amounts_ordered Isento Pre_fixado 10000 14.65 14 30 out);
    [lra | lra | lra | lia | exact Hout].
Defined.

(** ** The scenario loop *)

Lemma loop_body_inv
    (investment_type : string) (principal cdi_value rate : R)
    (labels : list string) (i : nat) (days : Z) (row : Tab2.scenario) :
  Tab2.loop_body investment_type principal cdi_value rate labels i days
  = Ok row ->
  cdi_value <> 0 /\
  exists tax_old tax_new g,
    Tab2.investment_type_logic investment_type days = (tax_old, tax_new) /\
    calculate_compound_return rate days = Ok (PyFloat g) /\
    row =
    {| Tab2.Prazo := match nth_error labels i with
                     | Some label => label
                     | None => (str_of_int days ++ "d")%string
                     end;
       Tab2.Dias := days;
       Tab2.tax_old := tax_old;
       Tab2.tax_new := tax_new;
       Tab2.gross_return_period := PyFloat g;
       Tab2.net_return_old_period := PyFloat (g * (1 - tax_old));
       Tab2.net_return_new_period := PyFloat (g * (1 - tax_new));
       Tab2.gross_annual_rate := rate;
       Tab2.net_annual_old := rate * (1 - tax_old);
       Tab2.net_annual_new := rate * (1 - tax_new);
       Tab2.cdi_gross := rate / cdi_value * 100;
       Tab2.cdi_net_old := rate * (1 - tax_old) / cdi_value * 100;
       Tab2.cdi_net_new := rate * (1 - tax_new) / cdi_value * 100;
       Tab2.final_gross := PyFloat (principal * (1 + g));
       Tab2.final_net_old := PyFloat (principal * (1 + g * (1 - tax_old)));
       Tab2.final_net_new := PyFloat (principal * (1 + g * (1 - tax_new)));
       Tab2.difference :=
         PyFloat (principal * (1 + g * (1 - tax_new))
                  - principal * (1 + g * (1 - tax_old)));
       Tab2.difference_pct :=
         PyFloat
           (if Rlt_dec 0 (principal * (1 + g * (1 - tax_old))) then
              (principal * (1 + g * (1 - tax_new))
               - principal * (1 + g * (1 - tax_old)))
              / (principal * (1 + g * (1 - tax_old))) * 100
            else 0) |}.
Proof.
  unfold Tab2.loop_body.
  destruct (Tab2.investment_type_logic investment_type days)
    as [tax_old tax_new].
  destruct (calculate_compound_return rate days) as [[g | re im] |];
    [| | discriminate]; cbn [bind]; unfold float_truediv;
    (destruct (Req_dec_T cdi_value 0) as [Hz | Hnz]; [discriminate |]);
    cbn [bind py_mul py_add py_sub py_gt to_complex]; [| discriminate].
  destruct (Rlt_dec 0 (principal * (1 + g * (1 - tax_old)))) as [Hpos | Hneg];
    cbn [bind py_truediv].
  - rewrite float_truediv_nonzero by lra. cbn [bind py_mul].
    intros Hrow. inversion Hrow; subst row; clear Hrow.
    split; [exact Hnz |]. exists tax_old, tax_new, g.
    split; [reflexivity | split; [reflexivity |]].
    destruct (Rlt_dec 0 _); [reflexivity | contradiction].
  - intros Hrow. inversion Hrow; subst row; clear Hrow.
    split; [exact Hnz |]. exists tax_old, tax_new, g.
    split; [reflexivity | split; [reflexivity |]].
    destruct (Rlt_dec 0 _); [contradiction | reflexivity].
Qed.



(** X8. The two copies of the calculation agree: when the first tab
    completes on some inputs and a pass of the scenario loop completes on
    the same category, principal, CDI, term and annual gross rate, both
    have the same tax rates, period returns, final amounts and net annual
    rates, and the scenario parameters of the second tab are the rate
    interpretation of the first. *)
Theorem tabs_agree
    (investment_type return_type : string)
    (principal cdi_value investment_return : R) (term : Z)
    (labels : list string) (i : nat)
    (out : Tab1.outputs) (row : Tab2.scenario) :
  Tab1.calculations investment_type return_type principal cdi_value
    investment_return term = Ok out ->
  Tab2.loop_body investment_type principal cdi_value
    (Tab1.total_rate_gross out) labels i term = Ok row ->
  Tab2.scenario_parameters return_type investment_return cdi_value
  = Ok (Tab1.cdi_percentage out, Tab1.total_rate_gross out) /\
  Tab2.tax_old row = Tab1.tax_rate_old out /\
  Tab2.tax_new row = Tab1.tax_rate_new out /\
  Tab2.gross_return_period row = Tab1.gross_return_period out /\
  Tab2.net_return_old_period row = Tab1.net_return_old_period out /\
  Tab2.net_return_new_period row = Tab1.net_return_new_period out /\
  Tab2.final_gross row = Tab1.final_amount_gross out /\
  Tab2.final_net_old row = Tab1.final_amount_net_old out /\
  Tab2.final_net_new row = Tab1.final_amount_net_new out /\
  Tab2.net_annual_old row = Tab1.total_rate_net_old out /\
  Tab2.net_annual_new row = Tab1.total_rate_net_new out.
Proof.
  intros Hcalc Hbody.
  apply tab1_calculations_inv in Hcalc.
  destruct Hcalc as (to & tn & pct & rate & gross & Htax & Hrate & Hg & ->).
  cbn [Tab1.total_rate_gross] in Hbody.
  apply loop_body_inv in Hbody.
  destruct Hbody as (_ & to' & tn' & g & Hlogic & Hg' & ->).
  rewrite Hg' in Hg. inversion Hg; subst gross; clear Hg.
  assert (Hsame : to' = to /\ tn' = tn).
  { apply default_tax_rate_range in Htax.
    unfold Tab2.investment_type_logic in Hlogic.
    destruct Htax as [(-> & -> & ->) | (-> & -> & ->)];
      cbn in Hlogic; inversion Hlogic; split; trivial; lra. }
  destruct Hsame as [-> ->].
  split; [exact Hrate |]. cbn. repeat split.
Qed.

Lemma tabs_agree_witness :
  exists out row,
    Tab1.calculations Tributavel pct_CDI 10000 14.65 100 30 = Ok out /\
    Tab2.loop_body Tributavel 10000 14.65 (Tab1.total_rate_gross out)
      Tab2.standard_labels 0 30 = Ok row /\
    Tab2.final_net_old row = Tab1.final_amount_net_old out /\
    Tab2.final_net_new row = Tab1.final_amount_net_new out.
Proof.
  destruct (tab1_calculations_total Tributavel pct_CDI 10000 14.65 100 30)
    as [out Hout];
    [left; reflexivity | left; reflexivity | lra | lra | lia |].
  pose proof (tab1_calculations_inv _ _ _ _ _ _ _ Hout)
    as (to & tn & pct & rate & gross & _ & Hrate & Hgross & Heq).
  assert (Hnonneg : 0 <= Tab1.total_rate_gross out).
  { rewrite Heq. cbn [Tab1.total_rate_gross].
    eapply total_rate_gross_nonneg; [| | exact Hrate]; lra. }
  assert (Hrange : in_double_range (Tab1.total_rate_gross out) 30).
  { rewrite Heq. cbn [Tab1.total_rate_gross].
    eapply compound_return_ok_range; [| exact Hgross]. lia. }
  destruct (loop_body_total Tributavel 10000 14.65
              (Tab1.total_rate_gross out) Tab2.standard_labels 0 30)
    as [row Hrow]; [lra | lra | lia | exact Hrange |].
  exists out, row. split; [exact Hout | split; [exact Hrow |]].
  pose proof (tabs_agree _ _ _ _ _ _ _ _ _ _ Hout Hrow) as H.
  split; apply H.
Defined.

Lemma skipn_nth_error {A : Type} (l : list A) :
  forall (i : nat) (x : A),
    nth_error l i = Some x -> skipn i l = x :: skipn (S i) l.
Proof.
  induction l as [| y l IH]; intros [| i] x H; try discriminate.
  - inversion H. reflexivity.
  - cbn in H. apply IH in H. exact H.
Qed.

Lemma scenarios_loop_terms
    (investment_type : string) (principal cdi_value rate : R)
    (labels : list string) (scenarios_days : list Z) :
  forall (i : nat) (acc data : list Tab2.scenario),
    Tab2.scenarios_loop investment_type principal cdi_value rate labels
      i scenarios_days acc = Ok data ->
    map Tab2.Dias data = map Tab2.Dias acc ++ scenarios_days /\
    ((i + List.length scenarios_days <= List.length labels)%nat ->
     map Tab2.Prazo data
     = map Tab2.Prazo acc
       ++ firstn (List.length scenarios_days) (skipn i labels)) /\
    ((List.length labels <= i)%nat ->
     map Tab2.Prazo data
     = map Tab2.Prazo acc
       ++ map (fun days => (str_of_int days ++ "d")%string) scenarios_days).
Proof.
  induction scenarios_days as [| days rest IH]; intros i acc data; cbn.
  - intros H. inversion H; subst. rewrite !app_nil_r. auto.
  - destruct (Tab2.loop_body _ _ _ _ _ i days) as [row |] eqn:Hbody;
      [| discriminate].
    cbn [bind]. intros Hrun. apply IH in Hrun.
    destruct Hrun as (Hdias & Hlab & Hfall).
    apply loop_body_inv in Hbody.
    destruct Hbody as (_ & to & tn & g & _ & _ & Hrow).
    assert (HD : Tab2.Dias row = days) by (rewrite Hrow; reflexivity).
    assert (HP : Tab2.Prazo row
                 = match nth_error labels i with
                   | Some label => label
                   | None => (str_of_int days ++ "d")%string
                   end) by (rewrite Hrow; reflexivity).
    rewrite map_app in Hdias, Hlab, Hfall. cbn [map] in Hdias, Hlab, Hfall.
    rewrite <- app_assoc in Hdias, Hlab, Hfall.
    cbn [app] in Hdias, Hlab, Hfall.
    rewrite HD in Hdias. split; [exact Hdias | split].
    + intros Hlen. rewrite Hlab by lia.
      destruct (nth_error labels i) as [label |] eqn:Hnth.
      * rewrite (skipn_nth_error labels i label Hnth), HP. reflexivity.
      * apply nth_error_None in Hnth. lia.
    + intros Hlen. rewrite Hfall by lia.
      destruct (nth_error labels i) as [label |] eqn:Hnth.
      * assert (i < List.length labels)%nat
          by (apply nth_error_Some; congruence). lia.
      * rewrite HP. reflexivity.
Qed.

Lemma scenarios_loop_keeps_order
    (investment_type : string) (principal cdi_value rate : R)
    (labels : list string) (scenarios_days : list Z)
    (data : list Tab2.scenario) :
  Tab2.scenarios_loop investment_type principal cdi_value rate labels
    0 scenarios_days [] = Ok data ->
  map Tab2.Dias data = scenarios_days /\
  ((List.length scenarios_days <= List.length labels)%nat ->
   map Tab2.Prazo data = firstn (List.length scenarios_days) labels) /\
  (labels = [] ->
   map Tab2.Prazo data
   = map (fun days => (str_of_int days ++ "d")%string) scenarios_days).
Proof.
  intros Hrun. apply scenarios_loop_terms in Hrun.
  destruct Hrun as (Hdias & Hlab & Hfall).
  split; [exact Hdias | split].
  - intros Hlen. apply Hlab. cbn. exact Hlen.
  - intros ->. apply Hfall. cbn. lia.
Qed.

(** X9. The scenario loop keeps the order of the terms and pairs them
    with the labels by position: the rows it returns carry the terms of
    the list in list order, their labels are the first labels of the label
    list when there are enough of them, and with no label list every row
    is labelled by its number of days followed by "d". *)
Theorem scenarios_loop_order
    (investment_type : string) (principal cdi_value rate : R)
    (labels : list string) (scenarios_days : list Z)
    (data : list Tab2.scenario) :
  Tab2.scenarios_loop investment_type principal cdi_value rate labels
    0 scenarios_days [] = Ok data ->
  map Tab2.Dias data = scenarios_days /\
  ((List.length scenarios_days <= List.length labels)%nat ->
   map Tab2.Prazo data = firstn (List.length scenarios_days) labels) /\
  (labels = [] ->
   map Tab2.Prazo data
   = map (fun days => (str_of_int days ++ "d")%string) scenarios_days).
Proof.
  exact (scenarios_loop_keeps_order investment_type principal cdi_value rate labels scenarios_days data).
Qed.

Lemma scenarios_loop_order_witness :
  exists data,
    Tab2.scenarios_loop Tributavel 10000 14.65 14.65 Tab2.standard_labels
      0 Tab2.standard_days [] = Ok data /\
    map Tab2.Dias data = Tab2.standard_days /\
    map Tab2.Prazo data = Tab2.standard_labels.
Proof.
  destruct (scenarios_loop_ordinary Tributavel 10000 14.65 14.65
              Tab2.standard_labels Tab2.standard_days) as [data Hdata];
    [lra | lra | repeat constructor; lia |].
  exists data. split; [exact Hdata |].
  pose proof (scenarios_loop_order _ _ _ _ _ _ _ Hdata) as (Hd & Hl & _).
  split; [exact Hd |]. apply Hl. cbn. lia.
Defined.

Lemma first_maximum_In {A : Type} (measure : A -> R) (items : list A)
    (best : A) :
  first_maximum measure items best -> In best items.
Proof.
  intros (before & after & -> & _). apply in_or_app. right. left. reflexivity.
Qed.

Lemma first_minimum_In {A : Type} (measure : A -> R) (items : list A)
    (worst : A) :
  first_minimum measure items worst -> In worst items.
Proof.
  intros (before & after & -> & _). apply in_or_app. right. left. reflexivity.
Qed.

Lemma scenarios_block_total_data
    (investment_type : string) (principal cdi_value rate : R)
    (labels : list string) (scenarios_days : list Z) :
  cdi_value <> 0 -> -100 <= rate <= 100 -> scenarios_days <> [] ->
  Forall (fun days => (0 < days <= 365000)%Z) scenarios_days ->
  exists a,
    Tab2.scenarios_block investment_type principal cdi_value rate labels
      scenarios_days = Ok (Some a) /\
    Tab2.scenarios_loop investment_type principal cdi_value rate labels
      0 scenarios_days [] = Ok (Tab2.scenarios_data a).
Proof.
  intros Hcdi Hrate Hne Hdays.
  destruct (scenarios_loop_ordinary investment_type principal cdi_value rate
              labels scenarios_days Hcdi Hrate Hdays)
    as [data Hloop].
  pose proof (scenarios_loop_float_rows _ _ _ _ _ _ _ _ _ Hloop
                (Forall_nil _)) as [Hrows Hlen].
  assert (Hdata : data <> []).
  { intros ->. destruct scenarios_days; [congruence | discriminate Hlen]. }
  apply float_rows_keys in Hrows.
  destruct (py_max_first _ _ data Hdata Hrows) as (best & Hmax & _).
  destruct (py_min_first _ _ data Hdata Hrows) as (worst & Hmin & _).
  exists {| Tab2.scenarios_data := data;
            Tab2.best_scenario := best;
            Tab2.worst_scenario := worst |}.
  split; [| exact Hloop].
  unfold Tab2.scenarios_block.
  destruct scenarios_days as [| d rest]; [congruence |].
  rewrite Hloop. cbn [bind]. rewrite Hmax. cbn [bind]. rewrite Hmin.
  reflexivity.
Qed.

(** X10. On a CDI other than zero, an annual gross rate between -100 and
    100 percent and a non-empty list of terms of 1 to 365000 days the
    scenario block raises nothing: it returns an analysis with one row per
    term, in the order of the terms, whose best and worst scenarios are
    rows of it. *)
Theorem scenarios_block_total
    (investment_type : string) (principal cdi_value rate : R)
    (labels : list string) (scenarios_days : list Z) :
  cdi_value <> 0 -> -100 <= rate <= 100 -> scenarios_days <> [] ->
  Forall (fun days => (0 < days <= 365000)%Z) scenarios_days ->
  exists a,
    Tab2.scenarios_block investment_type principal cdi_value rate labels
      scenarios_days = Ok (Some a) /\
    map Tab2.Dias (Tab2.scenarios_data a) = scenarios_days /\
    In (Tab2.best_scenario a) (Tab2.scenarios_data a) /\
    In (Tab2.worst_scenario a) (Tab2.scenarios_data a).
Proof.
  intros Hcdi Hrate Hne Hdays.
  destruct (scenarios_loop_ordinary investment_type principal cdi_value rate
              labels scenarios_days Hcdi Hrate Hdays)
    as [data Hloop].
  pose proof (scenarios_loop_float_rows _ _ _ _ _ _ _ _ _ Hloop
                (Forall_nil _)) as [Hrows Hlen].
  pose proof (scenarios_loop_keeps_order _ _ _ _ _ _ _ Hloop) as (Hdias & _).
  assert (Hdata : data <> []).
  { intros ->. destruct scenarios_days; [congruence | discriminate Hlen]. }
  apply float_rows_keys in Hrows.
  destruct (py_max_first _ _ data Hdata Hrows) as (best & Hmax & Hbest).
  destruct (py_min_first _ _ data Hdata Hrows) as (worst & Hmin & Hworst).
  exists {| Tab2.scenarios_data := data;
            Tab2.best_scenario := best;
            Tab2.worst_scenario := worst |}.
  split.
  - unfold Tab2.scenarios_block.
    destruct scenarios_days as [| d rest]; [congruence |].
    rewrite Hloop. cbn [bind]. rewrite Hmax. cbn [bind]. rewrite Hmin.
    reflexivity.
  - cbn. split; [exact Hdias | split].
    + eapply first_maximum_In, Hbest.
    + eapply first_minimum_In, Hworst.
Qed.

Lemma scenarios_block_total_witness :
  exists a,
    Tab2.scenarios_block Isento 10000 14.65 14 Tab2.standard_labels
      Tab2.standard_days = Ok (Some a) /\
    map Tab2.Dias (Tab2.scenarios_data a) = Tab2.standard_days /\
    In (Tab2.best_scenario a) (Tab2.scenarios_data a) /\
    In (Tab2.worst_scenario a) (Tab2.scenarios_data a).
Proof.
  apply (scenarios_block_total Isento 10000 14.65 14 Tab2.standard_labels
           Tab2.standard_days); [lra | lra | discriminate |].
  repeat constructor; lia.
Defined.

Lemma investment_type_logic_range (investment_type : string) (days : Z)
    (tax_old tax_new : R) :
  Tab2.investment_type_logic investment_type days = (tax_old, tax_new) ->
  (investment_type = Tributavel /\
   tax_old = Tab2.current_tax_rate days /\ tax_new = 0.175) \/
  (investment_type <> Tributavel /\ tax_old = 0 /\ tax_new = 0.05).
Proof.
  unfold Tab2.investment_type_logic.
  destruct (String.eqb_spec investment_type Tributavel) as [-> | Hne];
    intros H; inversion H.
  - left. repeat split.
  - right. repeat split; trivial; lra.
Qed.

(** X11. The sign of the difference between the regimes in a scenario,
    for a principal between 0 and 10^12, an annual gross rate between 0
    and 100 percent and a term of 1 to 3650 days: for a taxable investment
    it is not negative below 360 days, exactly zero from 360 to 719 days
    and not positive from 720 days on; for any other category it is not
    positive at any term. *)
Theorem scenario_difference_sign
    (investment_type : string) (principal cdi_value rate : R)
    (labels : list string) (i : nat) (days : Z) (row : Tab2.scenario) :
  0 < principal <= 1000000000000 -> 0 <= rate <= 100 ->
  (0 < days <= 3650)%Z ->
  Tab2.loop_body investment_type principal cdi_value rate labels i days
  = Ok row ->
  exists d,
    Tab2.difference row = PyFloat d /\
    (investment_type = Tributavel ->
     ((days < 360)%Z -> 0 <= d) /\
     ((360 <= days < 720)%Z -> d = 0) /\
     ((720 <= days)%Z -> d <= 0)) /\
    (investment_type <> Tributavel -> d <= 0).
Proof.
  intros HP Hrate Hdays Hbody. apply loop_body_inv in Hbody.
  destruct Hbody as (_ & to & tn & g & Hlogic & Hg & ->).
  cbn [Tab2.difference].
  eexists. split; [reflexivity |].
  assert (Hlow : -100 <= rate) by lra.
  assert (Hd : (0 < days)%Z) by lia.
  destruct (period_return_sign rate days _ Hlow Hd Hg)
    as (g' & Hg' & _ & Hpos & Hzero & _).
  inversion Hg'; subst g'; clear Hg'.
  assert (Hg0 : 0 <= g).
  { destruct (Req_dec_T rate 0) as [Hr | Hr];
      [rewrite (Hzero Hr); lra | apply Rlt_le, Hpos; lra]. }
  assert (HPg : 0 <= principal * g) by (apply Rmult_le_pos; lra).
  apply investment_type_logic_range in Hlogic.
  split.
  - intros ->. destruct Hlogic as [(_ & -> & ->) | (Hne & _)];
      [| congruence].
    split; [| split]; intros Hrange; brackets; nra.
  - intros Hne. destruct Hlogic as [(-> & _) | (_ & -> & ->)];
      [congruence | nra].
Qed.

Lemma scenario_difference_sign_witness :
  exists row d,
    Tab2.loop_body Tributavel 10000 14.65 14.65 [] 0 400 = Ok row /\
    Tab2.difference row = PyFloat d /\
    d = 0.
Proof.
  destruct (loop_body_ordinary Tributavel 10000 14.65 14.65 [] 0 400)
    as [row Hrow]; [lra | lra | lia |].
  destruct (scenario_difference_sign Tributavel 10000 14.65 14.65 [] 0 400
              row) as (d & Hd & Htax & _); [lra | lra | lia | exact Hrow |].
  exists row, d. split; [exact Hrow | split; [exact Hd |]].
  apply (Htax eq_refl). lia.
Defined.

(** X12. The percentage difference of a scenario never divides by zero:
    on a CDI other than zero, an annual gross rate between 0 and 100
    percent and a term of 1 to 365000 days the pass completes for every
    principal; with a principal that is not positive the percentage is
    the sentinel 0, and with a positive principal the old net final
    amount is positive and the percentage is the difference over it,
    times 100. *)
Theorem difference_pct_guarded
    (investment_type : string) (principal cdi_value rate : R)
    (labels : list string) (i : nat) (days : Z) :
  cdi_value <> 0 -> 0 <= rate <= 100 -> (0 < days <= 365000)%Z ->
  exists row d net_old,
    Tab2.loop_body investment_type principal cdi_value rate labels i days
    = Ok row /\
    Tab2.difference row = PyFloat d /\
    Tab2.final_net_old row = PyFloat net_old /\
    (principal <= 0 -> Tab2.difference_pct row = PyFloat 0) /\
    (0 < principal ->
     0 < net_old /\
     Tab2.difference_pct row = PyFloat (d / net_old * 100)).
Proof.
  intros Hcdi Hrate Hdays.
  destruct (loop_body_ordinary investment_type principal cdi_value rate
              labels i days Hcdi ltac:(lra) Hdays) as [row Hrow].
  pose proof (loop_body_inv _ _ _ _ _ _ _ _ Hrow)
    as (_ & to & tn & g & Hlogic & Hg & Heq).
  assert (Hlow : -100 <= rate) by lra.
  assert (Hd : (0 < days)%Z) by lia.
  destruct (period_return_sign rate days _ Hlow Hd Hg)
    as (g' & Hg' & _ & Hpos & Hzero & _).
  inversion Hg'; subst g'; clear Hg'.
  assert (Hg0 : 0 <= g).
  { destruct (Req_dec_T rate 0) as [Hr | Hr];
      [rewrite (Hzero Hr); lra | apply Rlt_le, Hpos; lra]. }
  assert (Hto : 0 <= to <= 0.225).
  { apply investment_type_logic_range in Hlogic.
    destruct Hlogic as [(_ & -> & _) | (_ & -> & _)]; [| lra].
    pose proof (tax_calculation_range days) as H.
    change (Tab1.tax_calculation days) with (Tab2.current_tax_rate days) in H.
    lra. }
  assert (Hfac : 1 <= 1 + g * (1 - to)) by nra.
  exists row. do 2 eexists. split; [exact Hrow |].
  rewrite Heq.
  cbn [Tab2.difference Tab2.final_net_old Tab2.difference_pct].
  split; [reflexivity | split; [reflexivity | split]].
  - intros HP. destruct (Rlt_dec 0 _) as [Hpositive | _]; [| reflexivity].
    exfalso. nra.
  - intros HP.
    assert (Hnet : 0 < principal * (1 + g * (1 - to)))
      by (apply Rmult_lt_0_compat; lra).
    split; [exact Hnet |].
    destruct (Rlt_dec 0 _) as [_ | Hn]; [reflexivity | contradiction].
Qed.

Lemma difference_pct_guarded_witness :
  exists row d net_old,
    Tab2.loop_body Isento 0 14.65 14 [] 0 30 = Ok row /\
    Tab2.difference row = PyFloat d /\
    Tab2.final_net_old row = PyFloat net_old /\
    (0 <= 0 -> Tab2.difference_pct row = PyFloat 0) /\
    (0 < 0 ->
     0 < net_old /\ Tab2.difference_pct row = PyFloat (d / net_old * 100)).
Proof.
  apply (difference_pct_guarded Isento 0 14.65 14 [] 0 30); [lra | lra | lia].
Defined.

(** X13. The CDI equivalents of a scenario: the gross figure is the
    annual gross rate over the CDI, times 100; each net figure is the
    annual gross rate times one minus the tax rate of its regime, over
    the CDI, times 100; and for a return that is not given in percent of
    the CDI the gross figure is the very percentage the scenario
    parameters computed. *)
Theorem scenario_cdi_equivalents
    (investment_type return_type : string)
    (principal cdi_value investment_return pct rate : R)
    (labels : list string) (i : nat) (days : Z) (row : Tab2.scenario) :
  Tab2.scenario_parameters return_type investment_return cdi_value
  = Ok (pct, rate) ->
  Tab2.loop_body investment_type principal cdi_value rate labels i days
  = Ok row ->
  Tab2.cdi_gross row = rate / cdi_value * 100 /\
  Tab2.cdi_net_old row = rate * (1 - Tab2.tax_old row) / cdi_value * 100 /\
  Tab2.cdi_net_new row = rate * (1 - Tab2.tax_new row) / cdi_value * 100 /\
  (return_type <> pct_CDI -> Tab2.cdi_gross row = pct).
Proof.
  intros Hparams Hbody. apply loop_body_inv in Hbody.
  destruct Hbody as (Hcdi & to & tn & g & _ & _ & ->).
  cbn [Tab2.cdi_gross Tab2.cdi_net_old Tab2.cdi_net_new
       Tab2.tax_old Tab2.tax_new].
  split; [reflexivity | split; [reflexivity | split; [reflexivity |]]].
  intros Hne. unfold Tab2.scenario_parameters in Hparams.
  destruct (String.eqb_spec return_type pct_CDI) as [Heq | _];
    [contradiction |].
  rewrite float_truediv_nonzero in Hparams by exact Hcdi.
  cbn [bind] in Hparams. inversion Hparams. reflexivity.
Qed.

Lemma scenario_cdi_equivalents_witness :
  exists row,
    Tab2.loop_body Tributavel 10000 14.65 14 [] 0 30 = Ok row /\
    Tab2.cdi_gross row = 14 / 14.65 * 100 /\
    Tab2.cdi_net_old row = 14 * (1 - Tab2.tax_old row) / 14.65 * 100 /\
    Tab2.cdi_net_new row = 14 * (1 - Tab2.tax_new row) / 14.65 * 100 /\
    (Pre_fixado <> pct_CDI -> Tab2.cdi_gross row = 14 / 14.65 * 100).
Proof.
  destruct (loop_body_ordinary Tributavel 10000 14.65 14 [] 0 30)
    as [row Hrow]; [lra | lra | lia |].
  exists row. split; [exact Hrow |].
  apply (scenario_cdi_equivalents Tributavel Pre_fixado 10000 14.65 14
           (14 / 14.65 * 100) 14 [] 0 30 row); [| exact Hrow].
  unfold Tab2.scenario_parameters. cbn.
  rewrite float_truediv_nonzero by lra. reflexivity.
Defined.

(** ** The choice of the terms *)

Lemma custom_loop_filter (reads : list Z) :
  forall (custom_days : list Z) (custom_labels : list string),
    Tab2Terms.custom_loop reads custom_days custom_labels
    = (custom_days ++ filter (fun days => (days >? 0)%Z) reads,
       custom_labels
       ++ map Tab2Terms.custom_label
            (filter (fun days => (days >? 0)%Z) reads)).
Proof.
  induction reads as [| days rest IH]; intros custom_days custom_labels; cbn.
  - rewrite !app_nil_r. reflexivity.
  - destruct (days >? 0)%Z.
    + rewrite IH. cbn. rewrite <- !app_assoc. reflexivity.
    + apply IH.
Qed.

Lemma filter_all {A : Type} (f : A -> bool) (l : list A) :
  Forall (fun x => f x = true) l -> filter f l = l.
Proof.
  induction 1 as [| x l Hx _ IH]; cbn; [reflexivity |].
  rewrite Hx, IH. reflexivity.
Qed.

Lemma custom_terms_filter (number_input : nat -> Z) :
  let scenarios_days := fst (Tab2Terms.custom_terms number_input) in
  let scenario_labels := snd (Tab2Terms.custom_terms number_input) in
  scenarios_days
  = filter (fun days => (days >? 0)%Z) (map number_input (seq 0 6)) /\
  scenario_labels = map Tab2Terms.custom_label scenarios_days /\
  List.length scenario_labels = List.length scenarios_days /\
  (List.length scenarios_days <= 6)%nat /\
  ((forall i, (i < 6)%nat -> (1 <= number_input i)%Z) ->
   scenarios_days = map number_input (seq 0 6) /\
   List.length scenarios_days = 6%nat).
Proof.
  unfold Tab2Terms.custom_terms. rewrite custom_loop_filter.
  cbn [app fst snd].
  set (reads := map number_input (seq 0 6)).
  set (kept := filter (fun days => (days >? 0)%Z) reads).
  assert (Hlen : (List.length kept <= 6)%nat).
  { unfold kept. etransitivity; [apply filter_length_le |].
    unfold reads. rewrite length_map, length_seq. lia. }
  assert (Hfirst : firstn 6 kept = kept) by (apply firstn_all2; exact Hlen).
  assert (Hfirst' : firstn 6 (map Tab2Terms.custom_label kept)
                    = map Tab2Terms.custom_label kept)
    by (apply firstn_all2; rewrite length_map; exact Hlen).
  rewrite Hfirst, Hfirst'.
  split; [reflexivity | split; [reflexivity | split]].
  - apply length_map.
  - split; [exact Hlen |].
    intros Hbound.
    assert (Hall : kept = reads).
    { unfold kept. apply filter_all. unfold reads.
      apply Forall_forall. intros days Hin.
      apply in_map_iff in Hin. destruct Hin as (i & <- & Hi).
      apply in_seq in Hi. specialize (Hbound i ltac:(lia)). lia. }
    rewrite Hall. split; [reflexivity |].
    unfold reads. rewrite length_map, length_seq. reflexivity.
Qed.

(** X14. The custom terms are the widget values that are positive, in
    widget order, each paired with its own label: the two lists have the
    same length, at most six.  When every widget value is at least 1, the
    lower bound of the widgets, nothing is dropped and there are exactly
    six terms, so the term list is never empty. *)
Theorem custom_terms_paired (number_input : nat -> Z) :
  let scenarios_days := fst (Tab2Terms.custom_terms number_input) in
  let scenario_labels := snd (Tab2Terms.custom_terms number_input) in
  scenarios_days
  = filter (fun days => (days >? 0)%Z) (map number_input (seq 0 6)) /\
  scenario_labels = map Tab2Terms.custom_label scenarios_days /\
  List.length scenario_labels = List.length scenarios_days /\
  (List.length scenarios_days <= 6)%nat /\
  ((forall i, (i < 6)%nat -> (1 <= number_input i)%Z) ->
   scenarios_days = map number_input (seq 0 6) /\
   List.length scenarios_days = 6%nat).
Proof.
  exact (custom_terms_filter number_input).
Qed.

(** A term list with a widget left at zero or below: that term is
    dropped and the later ones move up. *)
Example custom_terms_drop :
  Tab2Terms.custom_terms
    (fun i => nth i [30; 0; 400; 366; -5; 730]%Z 0%Z)
  = ([30; 400; 366; 730]%Z, ["1m"; "1a1m"; "1a0m"; "2a"]%string).
Proof. vm_compute. reflexivity. Qed.

Lemma custom_terms_paired_witness :
  fst (Tab2Terms.custom_terms (fun i => nth i Tab2.standard_days 30%Z))
  = Tab2.standard_days /\
  List.length
    (fst (Tab2Terms.custom_terms (fun i => nth i Tab2.standard_days 30%Z)))
  = 6%nat.
Proof.
  apply (custom_terms_paired (fun i => nth i Tab2.standard_days 30%Z)).
  intros i Hi.
  do 6 (destruct i as [| i]; [cbn; lia |]). lia.
Defined.

Lemma scenario_terms_valid (scenario_type : string) (number_input : nat -> Z) :
  (forall i, (i < 6)%nat -> (1 <= number_input i <= 3650)%Z) ->
  let scenarios_days :=
    fst (Tab2Terms.scenario_terms scenario_type number_input) in
  let scenario_labels :=
    snd (Tab2Terms.scenario_terms scenario_type number_input) in
  List.length scenarios_days = 6%nat /\
  List.length scenario_labels = 6%nat /\
  Forall (fun days => (0 < days <= 365000)%Z) scenarios_days.
Proof.
  intros Hbound. unfold Tab2Terms.scenario_terms.
  destruct (scenario_type =? "Prazos Padrão")%string.
  - cbn. split; [reflexivity | split; [reflexivity |]].
    repeat constructor; lia.
  - pose proof (custom_terms_filter number_input)
      as (_ & _ & Hlab & _ & Hall).
    assert (Hone : forall i, (i < 6)%nat -> (1 <= number_input i)%Z)
      by (intros i Hi; specialize (Hbound i Hi); lia).
    destruct (Hall Hone) as [Hdays Hsix].
    cbn zeta. split; [exact Hsix | split; [congruence |]].
    rewrite Hdays. apply Forall_forall. intros days Hin.
    apply in_map_iff in Hin. destruct Hin as (i & <- & Hi).
    apply in_seq in Hi. specialize (Hbound i ltac:(lia)). lia.
Qed.

(** X15. With values the widgets allow and within ordinary ranges -- a CDI
    above zero and at most 100, a return between 0 and 100, and six
    custom terms of 1 to 3650 days each -- the second tab raises nothing
    for any category, return type, principal and kind of analysis: it
    returns an analysis of exactly six scenarios, whose terms and labels
    are those of the chosen term list, in order. *)
Theorem tab2_total
    (investment_type return_type : string)
    (principal cdi_value investment_return : R)
    (scenario_type : string) (number_input : nat -> Z) :
  0 < cdi_value <= 100 -> 0 <= investment_return <= 100 ->
  (forall i, (i < 6)%nat -> (1 <= number_input i <= 3650)%Z) ->
  exists a,
    Tab2Terms.tab investment_type return_type principal cdi_value
      investment_return scenario_type number_input = Ok (Some a) /\
    List.length (Tab2.scenarios_data a) = 6%nat /\
    map Tab2.Dias (Tab2.scenarios_data a)
    = fst (Tab2Terms.scenario_terms scenario_type number_input) /\
    map Tab2.Prazo (Tab2.scenarios_data a)
    = snd (Tab2Terms.scenario_terms scenario_type number_input).
Proof.
  intros Hcdi Hret Hbound. unfold Tab2Terms.tab.
  assert (Hparams : exists pct rate,
             Tab2.scenario_parameters return_type investment_return cdi_value
             = Ok (pct, rate) /\ 0 <= rate <= 100).
  { unfold Tab2.scenario_parameters.
    destruct (return_type =? pct_CDI)%string;
      rewrite float_truediv_nonzero by lra; do 2 eexists;
      (split; [reflexivity |]); [| exact Hret].
    assert (Hq : 0 <= investment_return / 100 <= 1) by lra.
    nra. }
  destruct Hparams as (pct & rate & -> & Hrate). cbn [bind].
  pose proof (scenario_terms_valid scenario_type number_input Hbound)
    as (Hsix & Hlabels & Hpos).
  destruct (Tab2Terms.scenario_terms scenario_type number_input)
    as [scenarios_days scenario_labels].
  cbn [fst snd] in *.
  assert (Hne : scenarios_days <> []) by (intros ->; discriminate Hsix).
  assert (Hc : cdi_value <> 0) by lra.
  assert (Hr : -100 <= rate <= 100) by lra.
  destruct (scenarios_block_total_data investment_type principal cdi_value
              rate scenario_labels scenarios_days Hc Hr Hne Hpos)
    as (a & Hblock & Hloop).
  exists a. split; [exact Hblock |].
  pose proof (scenarios_loop_keeps_order _ _ _ _ _ _ _ Hloop) as (Hd & Hl & _).
  split; [| split].
  - rewrite <- (length_map Tab2.Dias), Hd. exact Hsix.
  - exact Hd.
  - rewrite Hl by lia. apply firstn_all2. lia.
Qed.

Lemma tab2_total_witness :
  exists a,
    Tab2Terms.tab Tributavel pct_CDI 10000 14.65 100 "Prazos Padrão"
      (fun _ => 30%Z) = Ok (Some a) /\
    List.length (Tab2.scenarios_data a) = 6%nat /\
    map Tab2.Dias (Tab2.scenarios_data a) = Tab2.standard_days /\
    map Tab2.Prazo (Tab2.scenarios_data a) = Tab2.standard_labels.
Proof.
  apply (tab2_total Tributavel pct_CDI 10000 14.65 100 "Prazos Padrão"
           (fun _ => 30%Z)); [lra | lra |].
  intros i _. lia.
Defined.

(** ** The first tab after the calculation block *)

Lemma tab1_results_floats
    (investment_type : string) (principal cdi_value : R) (term : Z)
    (out : Tab1.outputs) (gross net_old net_new : R) :
  Tab1.final_amount_gross out = PyFloat gross ->
  Tab1.final_amount_net_old out = PyFloat net_old ->
  Tab1.final_amount_net_new out = PyFloat net_new ->
  net_old <> 0 -> cdi_value <> 0 ->
  let tax_rate_old := Tab1.tax_rate_old out in
  let tax_rate_new := Tab1.tax_rate_new out in
  Tab1Results.results investment_type principal cdi_value term out
  = Ok {| Tab1Results.faixa :=
            Tab1Results.tax_bracket_explanation investment_type term;
          Tab1Results.difference := PyFloat (net_new - net_old);
          Tab1Results.melhor :=
            if Rlt_dec 0 (net_new - net_old) then true else false;
          Tab1Results.difference_pct :=
            PyFloat ((net_new - net_old) / net_old * 100);
          Tab1Results.delta_inverse :=
            if Rlt_dec (net_new - net_old) 0 then true else false;
          Tab1Results.economia :=
            PyFloat ((gross - principal) * (tax_rate_old - tax_rate_new));
          Tab1Results.tax_old := PyFloat ((gross - principal) * tax_rate_old);
          Tab1Results.tax_new := PyFloat ((gross - principal) * tax_rate_new);
          Tab1Results.conclusion_text :=
            (if Rlt_dec net_old net_new then "vantajoso"
             else "desvantajoso")%string;
          Tab1Results.percentage_diff :=
            PyFloat (Rabs ((net_new - net_old) / net_old * 100));
          Tab1Results.absolute_diff := PyFloat (Rabs (net_new - net_old));
          Tab1Results.tax_diff_absolute :=
            PyFloat (Rabs ((gross - principal) * tax_rate_old
                           - (gross - principal) * tax_rate_new));
          Tab1Results.tax_diff_percentage :=
            PyFloat
              (if Rlt_dec 0 ((gross - principal) * tax_rate_old) then
                 Rabs (((gross - principal) * tax_rate_new
                        - (gross - principal) * tax_rate_old)
                       / ((gross - principal) * tax_rate_old) * 100)
               else 0);
          Tab1Results.tax_rate_diff_pp :=
            Rabs (tax_rate_new - tax_rate_old) * 100;
          Tab1Results.cdi_net_old :=
            Tab1.total_rate_net_old out / cdi_value * 100;
          Tab1Results.cdi_net_new :=
            Tab1.total_rate_net_new out / cdi_value * 100;
          Tab1Results.short_term_warning :=
            if (term <=? 30)%Z then
              Some (if Rlt_dec tax_rate_new tax_rate_old then "redução"
                    else "aumento")%string
            else None |}.
Proof.
  intros Hg Ho Hn Hnz Hcdi tax_rate_old tax_rate_new.
  subst tax_rate_old tax_rate_new.
  unfold Tab1Results.results. rewrite Hg, Ho, Hn.
  cbn [py_sub py_gt py_lt py_mul py_truediv py_abs bind].
  rewrite !float_truediv_nonzero by assumption.
  cbn [bind py_mul py_abs].
  destruct (Rlt_dec 0 ((gross - principal) * Tab1.tax_rate_old out))
    as [Hpos | Hneg]; cbn [bind py_truediv].
  - rewrite float_truediv_nonzero by lra. cbn [bind py_mul py_abs].
    rewrite !float_truediv_nonzero by assumption. cbn [bind].
    destruct (Rlt_dec net_old net_new); reflexivity.
  - rewrite !float_truediv_nonzero by assumption. cbn [bind].
    destruct (Rlt_dec net_old net_new); reflexivity.
Qed.

Lemma bind_ok_inv {A B : Type} (m : result A) (k : A -> result B) (b : B) :
  bind m k = Ok b -> exists a, m = Ok a /\ k a = Ok b.
Proof.
  destruct m as [a | e]; cbn; [eauto | discriminate].
Qed.

Lemma float_truediv_ok_inv (a b q : R) :
  float_truediv a b = Ok q -> b <> 0.
Proof.
  unfold float_truediv. destruct (Req_dec_T b 0); [discriminate | auto].
Qed.

Lemma tab1_tab_inv
    (investment_type return_type : string)
    (principal cdi_value investment_return : R) (term : Z)
    (out : Tab1.outputs) (res : Tab1Results.summary) :
  Tab1Results.tab investment_type return_type principal cdi_value
    investment_return term = Ok (out, res) ->
  Tab1.calculations investment_type return_type principal cdi_value
    investment_return term = Ok out /\
  Tab1Results.results investment_type principal cdi_value term out
  = Ok res /\
  cdi_value <> 0 /\
  exists g,
    calculate_compound_return (Tab1.total_rate_gross out) term
    = Ok (PyFloat g) /\
    Tab1.final_amount_gross out = PyFloat (principal * (1 + g)) /\
    Tab1.final_amount_net_old out
    = PyFloat (principal * (1 + g * (1 - Tab1.tax_rate_old out))) /\
    Tab1.final_amount_net_new out
    = PyFloat (principal * (1 + g * (1 - Tab1.tax_rate_new out))) /\
    principal * (1 + g * (1 - Tab1.tax_rate_old out)) <> 0.
Proof.
  unfold Tab1Results.tab.
  destruct (Tab1.calculations _ _ _ _ _ _) as [out0 |] eqn:Hcalc;
    [| discriminate].
  cbn [bind].
  destruct (Tab1Results.results _ _ _ _ out0) as [res0 |] eqn:Hres;
    [| discriminate].
  cbn [bind]. intros H. inversion H; subst out0 res0; clear H.
  split; [reflexivity | split; [exact Hres |]].
  pose proof (tab1_calculations_inv _ _ _ _ _ _ _ Hcalc)
    as (to & tn & pct & rate & gross & _ & _ & Hg & Heq).
  unfold Tab1Results.results in Hres.
  rewrite Heq in Hres.
  cbn [Tab1.final_amount_gross Tab1.final_amount_net_old
       Tab1.final_amount_net_new Tab1.tax_rate_old Tab1.tax_rate_new
       Tab1.total_rate_net_old Tab1.total_rate_net_new] in Hres.
  destruct gross as [g | re im];
    cbn [py_mul py_add py_sub py_gt to_complex bind] in Hres;
    [| discriminate Hres].
  apply bind_ok_inv in Hres. destruct Hres as (q_metric & Hq & Hres).
  cbn [py_truediv] in Hq.
  apply bind_ok_inv in Hq. destruct Hq as (q & Hq & _).
  apply float_truediv_ok_inv in Hq.
  cbn [py_lt bind] in Hres.
  apply bind_ok_inv in Hres. destruct Hres as (q_summary & _ & Hres).
  apply bind_ok_inv in Hres. destruct Hres as (tax_positive & _ & Hres).
  apply bind_ok_inv in Hres. destruct Hres as (tdp & _ & Hres).
  apply bind_ok_inv in Hres. destruct Hres as (q_old & Hqo & _).
  apply float_truediv_ok_inv in Hqo.
  split; [exact Hqo |].
  exists g. rewrite Heq. cbn. repeat split; trivial.
Qed.

Lemma tab1_rates
    (investment_type return_type : string)
    (principal cdi_value investment_return : R) (term : Z)
    (out : Tab1.outputs) :
  Tab1.calculations investment_type return_type principal cdi_value
    investment_return term = Ok out ->
  (investment_type = Tributavel /\
   Tab1.tax_rate_old out = Tab1.tax_calculation term /\
   Tab1.tax_rate_new out = 0.175) \/
  (investment_type = Isento /\
   Tab1.tax_rate_old out = 0 /\ Tab1.tax_rate_new out = 0.05).
Proof.
  intros Hcalc. apply tab1_calculations_inv in Hcalc.
  destruct Hcalc as (to & tn & pct & rate & gross & Htax & _ & _ & ->).
  apply default_tax_rate_range in Htax. exact Htax.
Qed.

Ltac tab1_explicit H :=
  let Hcalc := fresh "Hcalc" in
  let Hres := fresh "Hres" in
  let Hcdi := fresh "Hcdi" in
  let g := fresh "g" in
  let Hg := fresh "Hg" in
  let Hfg := fresh "Hfg" in
  let Hfo := fresh "Hfo" in
  let Hfn := fresh "Hfn" in
  let Hnz := fresh "Hnz" in
  apply tab1_tab_inv in H;
  destruct H as (Hcalc & Hres & Hcdi & g & Hg & Hfg & Hfo & Hfn & Hnz);
  rewrite (tab1_results_floats _ _ _ _ _ _ _ _ Hfg Hfo Hfn Hnz Hcdi) in Hres;
  inversion Hres; subst; clear Hres.

Lemma tab1_valid_run
    (investment_type return_type : string)
    (principal cdi_value investment_return : R) (term : Z) :
  investment_type = Tributavel \/ investment_type = Isento ->
  0 < principal -> 0 < cdi_value <= 100 -> 0 <= investment_return <= 100 ->
  (0 < term <= 365000)%Z ->
  exists out res,
    Tab1Results.tab investment_type return_type principal cdi_value
      investment_return term = Ok (out, res).
Proof.
  intros Htype HP Hcdi Hret Hterm.
  assert (Hnz : return_type = pct_CDI \/ cdi_value <> 0) by (right; lra).
  assert (Hc : 0 <= cdi_value <= 100) by lra.
  destruct (tab1_calculations_total investment_type return_type principal
              cdi_value investment_return term Htype Hnz Hc Hret Hterm)
    as [out Hout].
  destruct (tab1_amounts_bounds investment_type return_type principal
              cdi_value investment_return term out)
    as (gross & net_old & net_new & Hfg & Hfo & Hfn & Hlow);
    try lra; try lia; try assumption.
  unfold Tab1Results.tab. rewrite Hout. cbn [bind].
  rewrite (tab1_results_floats _ _ _ _ _ _ _ _ Hfg Hfo Hfn) by lra.
  cbn [bind]. do 2 eexists. reflexivity.
Qed.

(** X16. With values the widgets allow and within ordinary ranges -- a
    known category, a positive principal, a CDI above zero and at most
    100, a return between 0 and 100 and a term of 1 to 365000 days -- the
    first tab raises nothing, for either return type. *)
Theorem tab1_total
    (investment_type return_type : string)
    (principal cdi_value investment_return : R) (term : Z) :
  investment_type = Tributavel \/ investment_type = Isento ->
  0 < principal -> 0 < cdi_value <= 100 -> 0 <= investment_return <= 100 ->
  (0 < term <= 365000)%Z ->
  exists out res,
    Tab1Results.tab investment_type return_type principal cdi_value
      investment_return term = Ok (out, res).
Proof.
  apply tab1_valid_run.
Qed.

Lemma tab1_total_witness :
  exists out res,
    Tab1Results.tab Tributavel pct_CDI 10000 14.65 100 30 = Ok (out, res).
Proof.
  apply (tab1_total Tributavel pct_CDI 10000 14.65 100 30);
    [left; reflexivity | lra | lra | lra | lia].
Defined.

(** X17. With a CDI of zero the first tab ends in [ZeroDivisionError]
    for either return type, whatever the principal and the return: a
    pre-fixed rate fails in the calculation block, a percentage of the
    CDI passes it and fails later, at the latest where the net rates are
    divided by the CDI. *)
Theorem tab1_zero_cdi
    (investment_type return_type : string)
    (principal investment_return : R) (term : Z) :
  investment_type = Tributavel \/ investment_type = Isento ->
  (0 < term)%Z ->
  Tab1Results.tab investment_type return_type principal 0
    investment_return term = Raise ZeroDivisionError /\
  (return_type = pct_CDI ->
   exists out,
     Tab1.calculations investment_type return_type principal 0
       investment_return term = Ok out).
Proof.
  intros Htype Hterm.
  assert (Htot : return_type = pct_CDI ->
                 exists out,
                   Tab1.calculations investment_type return_type principal 0
                     investment_return term = Ok out).
  { intros Hrt.
    apply (tab1_calculations_run investment_type return_type principal 0
             investment_return investment_return 0 term Htype);
      [| exact Hterm | apply in_double_range_zero_rate].
    subst return_type. unfold Tab1.rate_interpretation. cbn.
    rewrite float_truediv_nonzero by lra. cbn [bind].
    rewrite Rmult_0_r. reflexivity. }
  split; [| exact Htot].
  unfold Tab1Results.tab.
  destruct (String.eqb_spec return_type pct_CDI) as [Hrt | Hrt].
  - destruct (Htot Hrt) as [out Hout]. rewrite Hout. cbn [bind].
    pose proof (tab1_calculations_inv _ _ _ _ _ _ _ Hout)
      as (to & tn & pct & rate & gross & _ & Hrate & Hg & Heq).
    assert (Hzero : rate = 0).
    { subst return_type. unfold Tab1.rate_interpretation in Hrate.
      cbn in Hrate. rewrite float_truediv_nonzero in Hrate by lra.
      cbn in Hrate. inversion Hrate. lra. }
    subst rate. rewrite zero_rate_zero_return in Hg by exact Hterm.
    inversion Hg; subst gross; clear Hg.
    unfold Tab1Results.results. rewrite Heq.
    cbn [Tab1.final_amount_gross Tab1.final_amount_net_old
         Tab1.final_amount_net_new Tab1.tax_rate_old Tab1.tax_rate_new
         Tab1.total_rate_net_old Tab1.total_rate_net_new
         py_mul py_add py_sub py_gt py_lt py_truediv py_abs bind].
    unfold float_truediv at 1.
    destruct (Req_dec_T (principal * (1 + 0 * (1 - to))) 0) as [Hz | Hnz];
      [reflexivity |].
    cbn [bind py_mul py_abs]. rewrite float_truediv_nonzero by exact Hnz.
    cbn [bind py_mul py_abs].
    destruct (Rlt_dec 0 _) as [Hpos | Hneg]; cbn [bind py_truediv].
    + rewrite float_truediv_nonzero by lra. cbn [bind py_mul py_abs].
      rewrite float_truediv_zero. reflexivity.
    + rewrite float_truediv_zero. reflexivity.
  - unfold Tab1.calculations.
    assert (Htax : exists rates,
               default_tax_rate (Tab1.tax_calculation term) investment_type
               = Ok rates)
      by (destruct Htype as [-> | ->]; eexists; reflexivity).
    destruct Htax as [[to tn] ->]. cbn [bind].
    unfold Tab1.rate_interpretation.
    apply String.eqb_neq in Hrt. rewrite Hrt.
    rewrite float_truediv_zero. reflexivity.
Qed.

Lemma tab1_zero_cdi_witness :
  Tab1Results.tab Isento pct_CDI 10000 0 100 30 = Raise ZeroDivisionError /\
  (pct_CDI = pct_CDI ->
   exists out,
     Tab1.calculations Isento pct_CDI 10000 0 100 30 = Ok out).
Proof.
  apply (tab1_zero_cdi Isento pct_CDI 10000 100 30);
    [right; reflexivity | lia].
Defined.

(** X18. Whenever the first tab completes, metric and summary agree: the
    absolute difference of the summary is the absolute value of the
    difference shown in the metric, the absolute tax difference is the
    absolute value of the old tax amount minus the new one, and the metric
    says "Melhor" exactly when the summary says "vantajoso".  Moreover,
    read as real numbers -- the formulas of the code without the rounding
    of its doubles -- the gain of the new regime is the tax it saves: the
    difference of the net final amounts equals the old tax amount minus
    the new one and the "Economia/Perda de Imposto" of the table, and the
    absolute difference equals the absolute tax difference. *)
Theorem tab1_difference_is_tax_saving
    (investment_type return_type : string)
    (principal cdi_value investment_return : R) (term : Z)
    (out : Tab1.outputs) (res : Tab1Results.summary) :
  Tab1Results.tab investment_type return_type principal cdi_value
    investment_return term = Ok (out, res) ->
  exists d e t_old t_new a b,
    Tab1Results.difference res = PyFloat d /\
    Tab1Results.economia res = PyFloat e /\
    Tab1Results.tax_old res = PyFloat t_old /\
    Tab1Results.tax_new res = PyFloat t_new /\
    Tab1Results.absolute_diff res = PyFloat a /\
    Tab1Results.tax_diff_absolute res = PyFloat b /\
    a = Rabs d /\ b = Rabs (t_old - t_new) /\
    (Tab1Results.melhor res = true <->
     Tab1Results.conclusion_text res = "vantajoso"%string) /\
    d = e /\ d = t_old - t_new /\ a = b.
Proof.
  intros H. tab1_explicit H.
  cbn [Tab1Results.difference Tab1Results.economia Tab1Results.tax_old
       Tab1Results.tax_new Tab1Results.absolute_diff
       Tab1Results.tax_diff_absolute Tab1Results.melhor
       Tab1Results.conclusion_text].
  do 6 eexists.
  do 6 (split; [reflexivity |]).
  split; [reflexivity | split; [reflexivity | split]].
  - destruct (Rlt_dec 0 _) as [Hpos | Hneg];
      destruct (Rlt_dec _ _) as [Hlt | Hnlt];
      split; intros Heq; try reflexivity; try discriminate Heq;
      exfalso; lra.
  - split; [ring | split; [ring | f_equal; ring]].
Qed.

Lemma tab1_difference_is_tax_saving_witness :
  exists out res d e,
    Tab1Results.tab Tributavel pct_CDI 10000 14.65 100 30 = Ok (out, res) /\
    Tab1Results.difference res = PyFloat d /\
    Tab1Results.economia res = PyFloat e /\
    d = e.
Proof.
  destruct (tab1_valid_run Tributavel pct_CDI 10000 14.65 100 30)
    as (out & res & Htab);
    [left; reflexivity | lra | lra | lra | lia |].
  destruct (tab1_difference_is_tax_saving _ _ _ _ _ _ _ _ Htab)
    as (d & e & t_old & t_new & a & b & Hd & He & _ & _ & _ & _ & _ & _ & _
        & Heq & _).
  exists out, res, d, e. auto.
Defined.

(** X19. For a positive principal, an annual gross rate that is not
    negative and a positive term, the summary says either "vantajoso" or
    "desvantajoso", and "vantajoso" only where the new rate is below the
    old one, that is only for a taxable investment of less than 360 days:
    for an exempt investment, and for a taxable one of 360 days or more
    -- also from 360 to 719 days, where the two rates coincide -- the
    wording is "desvantajoso". *)
Theorem tab1_conclusion
    (investment_type return_type : string)
    (principal cdi_value investment_return : R) (term : Z)
    (out : Tab1.outputs) (res : Tab1Results.summary) :
  Tab1Results.tab investment_type return_type principal cdi_value
    investment_return term = Ok (out, res) ->
  0 < principal -> 0 <= Tab1.total_rate_gross out -> (0 < term)%Z ->
  (Tab1Results.conclusion_text res = "vantajoso"%string \/
   Tab1Results.conclusion_text res = "desvantajoso"%string) /\
  (Tab1Results.conclusion_text res = "vantajoso"%string ->
   Tab1.tax_rate_new out < Tab1.tax_rate_old out /\
   investment_type = Tributavel /\ (term < 360)%Z) /\
  (investment_type = Isento ->
   Tab1Results.conclusion_text res = "desvantajoso"%string) /\
  (investment_type = Tributavel -> (360 <= term)%Z ->
   Tab1Results.conclusion_text res = "desvantajoso"%string).
Proof.
  intros H HP Hrate Hterm. tab1_explicit H.
  assert (Hlow : -100 <= Tab1.total_rate_gross out) by lra.
  destruct (period_return_sign (Tab1.total_rate_gross out) term _
              Hlow Hterm Hg) as (g' & Hg' & _ & Hpos & Hzero & _).
  inversion Hg'; subst g'; clear Hg'.
  assert (Hg0 : 0 <= g).
  { destruct (Req_dec_T (Tab1.total_rate_gross out) 0) as [Hr | Hr];
      [rewrite (Hzero Hr); lra | apply Rlt_le, Hpos; lra]. }
  assert (HPg : 0 <= principal * g) by (apply Rmult_le_pos; lra).
  cbn [Tab1Results.conclusion_text].
  assert (Himp : principal * (1 + g * (1 - Tab1.tax_rate_old out))
                 < principal * (1 + g * (1 - Tab1.tax_rate_new out))
                 -> Tab1.tax_rate_new out < Tab1.tax_rate_old out).
  { intros Hlt.
    destruct (Rlt_le_dec (Tab1.tax_rate_new out) (Tab1.tax_rate_old out))
      as [Hr | Hr]; [exact Hr | exfalso; nra]. }
  pose proof (tab1_rates _ _ _ _ _ _ _ Hcalc) as Hrates.
  split; [| split; [| split]].
  - destruct (Rlt_dec _ _); auto.
  - destruct (Rlt_dec _ _) as [Hlt | _]; [| discriminate].
    intros _. apply Himp in Hlt. split; [exact Hlt |].
    destruct Hrates as [(-> & Ho & Hn) | (_ & Ho & Hn)];
      [| exfalso; lra].
    split; [reflexivity |].
    destruct (Z_lt_ge_dec term 360) as [Hshort | Hlong]; [exact Hshort |].
    exfalso. revert Hlt. rewrite Ho, Hn. brackets; intros Hlt; lra.
  - intros ->. destruct Hrates as [(Habs & _) | (_ & Ho & Hn)];
      [discriminate Habs |].
    destruct (Rlt_dec _ _) as [Hlt | _]; [| reflexivity].
    apply Himp in Hlt. lra.
  - intros -> Hlong. destruct Hrates as [(_ & Ho & Hn) | (Habs & _)];
      [| discriminate Habs].
    destruct (Rlt_dec _ _) as [Hlt | _]; [| reflexivity].
    apply Himp in Hlt. exfalso. revert Hlt. rewrite Ho, Hn.
    brackets; intros Hlt; lra.
Qed.

Lemma tab1_run_prefixed (investment_type : string) (term : Z) :
  investment_type = Tributavel \/ investment_type = Isento ->
  (0 < term <= 365000)%Z ->
  exists out res,
    Tab1Results.tab investment_type Pre_fixado 10000 14.65 14 term
    = Ok (out, res) /\
    Tab1.total_rate_gross out = 14.
Proof.
  intros Htype Hterm.
  destruct (tab1_valid_run investment_type Pre_fixado 10000 14.65 14 term)
    as (out & res & Htab); [exact Htype | lra | lra | lra | exact Hterm |].
  exists out, res. split; [exact Htab |].
  apply tab1_tab_inv in Htab. destruct Htab as (Hcalc & _).
  apply tab1_calculations_inv in Hcalc.
  destruct Hcalc as (to & tn & pct & rate & gross & _ & Hrate & _ & ->).
  unfold Tab1.rate_interpretation in Hrate. cbn in Hrate.
  rewrite float_truediv_nonzero in Hrate by lra. cbn in Hrate.
  inversion Hrate. reflexivity.
Qed.

Lemma tab1_conclusion_witness :
  exists out res,
    Tab1Results.tab Tributavel Pre_fixado 10000 14.65 14 400
    = Ok (out, res) /\
    Tab1Results.conclusion_text res = "desvantajoso"%string.
Proof.
  destruct (tab1_run_prefixed Tributavel 400) as (out & res & Htab & Hrate);
    [left; reflexivity | lia |].
  exists out, res. split; [exact Htab |].
  destruct (tab1_conclusion _ _ _ _ _ _ _ _ Htab)
    as (_ & _ & _ & Htax); [lra | lra | lia |].
  apply Htax; [reflexivity | lia].
Defined.

(** X20. The percentage change of the tax in the summary is guarded by
    the old tax amount of the chart: where that amount is not positive it
    is the sentinel 0 and nothing is divided, otherwise it is
    [|new amount - old amount| / old amount] times 100.  For an exempt
    investment, whose old rate is zero, it is always the sentinel 0. *)
Theorem tab1_tax_diff_percentage
    (investment_type return_type : string)
    (principal cdi_value investment_return : R) (term : Z)
    (out : Tab1.outputs) (res : Tab1Results.summary) :
  Tab1Results.tab investment_type return_type principal cdi_value
    investment_return term = Ok (out, res) ->
  exists t_old t_new pct,
    Tab1Results.tax_old res = PyFloat t_old /\
    Tab1Results.tax_new res = PyFloat t_new /\
    Tab1Results.tax_diff_percentage res = PyFloat pct /\
    (t_old <= 0 -> pct = 0) /\
    (0 < t_old -> pct = Rabs ((t_new - t_old) / t_old * 100)) /\
    (investment_type = Isento -> pct = 0).
Proof.
  intros H. tab1_explicit H.
  pose proof (tab1_rates _ _ _ _ _ _ _ Hcalc) as Hrates.
  cbn [Tab1Results.tax_diff_percentage Tab1Results.tax_old
       Tab1Results.tax_new].
  do 3 eexists.
  split; [reflexivity | split; [reflexivity | split; [reflexivity |]]].
  split; [| split].
  - intros Hle. destruct (Rlt_dec 0 _) as [Hpos | _]; [| reflexivity].
    exfalso. lra.
  - intros Hpos. destruct (Rlt_dec 0 _) as [_ | Hn];
      [reflexivity | contradiction].
  - intros ->. destruct Hrates as [(Habs & _) | (_ & Ho & Hn)];
      [discriminate Habs |].
    rewrite Ho. destruct (Rlt_dec 0 _) as [Hpos | _]; [| reflexivity].
    exfalso. lra.
Qed.

Lemma tab1_tax_diff_percentage_witness :
  exists out res,
    Tab1Results.tab Isento Pre_fixado 10000 14.65 14 30 = Ok (out, res) /\
    Tab1Results.tax_diff_percentage res = PyFloat 0.
Proof.
  destruct (tab1_run_prefixed Isento 30) as (out & res & Htab & _);
    [right; reflexivity | lia |].
  exists out, res. split; [exact Htab |].
  destruct (tab1_tax_diff_percentage _ _ _ _ _ _ _ _ Htab)
    as (t_old & t_new & pct & _ & _ & -> & _ & _ & Hex).
  rewrite (Hex eq_refl). reflexivity.
Defined.

(** X21. The bracket shown for a taxable investment is chosen by the
    thresholds of the rate, so label and rate always go together: "Acima
    de 720 dias" with 0.15 from 720 days on, "361 a 720 dias" with 0.175
    from 360 to 719 days, "181 a 360 dias" with 0.2 from 180 to 359 days,
    "Até 180 dias" with 0.225 below 180 days.  No bracket is shown for
    another category. *)
Theorem tab1_bracket_label (investment_type : string) (term : Z) :
  (investment_type = Tributavel ->
   exists label,
     Tab1Results.tax_bracket_explanation investment_type term = Some label /\
     ((label = "Acima de 720 dias"%string /\
       Tab1.tax_calculation term = 0.15 /\ (720 <= term)%Z) \/
      (label = "361 a 720 dias"%string /\
       Tab1.tax_calculation term = 0.175 /\ (360 <= term < 720)%Z) \/
      (label = "181 a 360 dias"%string /\
       Tab1.tax_calculation term = 0.2 /\ (180 <= term < 360)%Z) \/
      (label = "Até 180 dias"%string /\
       Tab1.tax_calculation term = 0.225 /\ (term < 180)%Z))) /\
  (investment_type <> Tributavel ->
   Tab1Results.tax_bracket_explanation investment_type term = None).
Proof.
  unfold Tab1Results.tax_bracket_explanation. split.
  - intros ->. cbn [String.eqb]. rewrite String.eqb_refl.
    eexists. split; [reflexivity |].
    unfold Tab1.tax_calculation.
    destruct (Z.geb_spec term 720); [left; repeat split; lia |].
    destruct (Z.geb_spec term 360);
      [right; left; repeat split; lia |].
    destruct (Z.geb_spec term 180);
      [right; right; left; repeat split; lia |].
    right; right; right. repeat split; lia.
  - intros Hne. apply String.eqb_neq in Hne. rewrite Hne. reflexivity.
Qed.

Lemma tab1_bracket_label_witness :
  (exists label,
     Tab1Results.tax_bracket_explanation Tributavel 360 = Some label /\
     ((label = "Acima de 720 dias"%string /\
       Tab1.tax_calculation 360 = 0.15 /\ (720 <= 360)%Z) \/
      (label = "361 a 720 dias"%string /\
       Tab1.tax_calculation 360 = 0.175 /\ (360 <= 360 < 720)%Z) \/
      (label = "181 a 360 dias"%string /\
       Tab1.tax_calculation 360 = 0.2 /\ (180 <= 360 < 360)%Z) \/
      (label = "Até 180 dias"%string /\
       Tab1.tax_calculation 360 = 0.225 /\ (360 < 180)%Z))) /\
  Tab1Results.tax_bracket_explanation Isento 360 = None.
Proof.
  split.
  - apply (tab1_bracket_label Tributavel 360). reflexivity.
  - apply (tab1_bracket_label Isento 360). discriminate.
Defined.

(** X22. The short-term warning appears exactly for terms of at most 30
    days, and then speaks of a "redução" of the rate for a taxable
    investment and of an "aumento" for an exempt one. *)
Theorem tab1_short_term_warning
    (investment_type return_type : string)
    (principal cdi_value investment_return : R) (term : Z)
    (out : Tab1.outputs) (res : Tab1Results.summary) :
  Tab1Results.tab investment_type return_type principal cdi_value
    investment_return term = Ok (out, res) ->
  ((30 < term)%Z -> Tab1Results.short_term_warning res = None) /\
  ((term <= 30)%Z -> investment_type = Tributavel ->
   Tab1Results.short_term_warning res = Some "redução"%string) /\
  ((term <= 30)%Z -> investment_type = Isento ->
   Tab1Results.short_term_warning res = Some "aumento"%string).
Proof.
  intros H. tab1_explicit H.
  pose proof (tab1_rates _ _ _ _ _ _ _ Hcalc) as Hrates.
  cbn [Tab1Results.short_term_warning].
  split; [| split].
  - intros Hlong. destruct (Z.leb_spec term 30); [lia | reflexivity].
  - intros Hshort ->.
    destruct Hrates as [(_ & Ho & Hn) | (Habs & _)]; [| discriminate Habs].
    destruct (Z.leb_spec term 30); [| lia]. rewrite Ho, Hn.
    destruct (Rlt_dec _ _) as [_ | Hn0]; [reflexivity |].
    exfalso. apply Hn0. brackets. lra.
  - intros Hshort ->.
    destruct Hrates as [(Habs & _) | (_ & Ho & Hn)]; [discriminate Habs |].
    destruct (Z.leb_spec term 30); [| lia]. rewrite Ho, Hn.
    destruct (Rlt_dec _ _) as [Hlt | _]; [exfalso; lra | reflexivity].
Qed.

Lemma tab1_short_term_warning_witness :
  exists out res,
    Tab1Results.tab Tributavel Pre_fixado 10000 14.65 14 30 = Ok (out, res) /\
    Tab1Results.short_term_warning res = Some "redução"%string.
Proof.
  destruct (tab1_run_prefixed Tributavel 30) as (out & res & Htab & _);
    [left; reflexivity | lia |].
  exists out, res. split; [exact Htab |].
  apply (tab1_short_term_warning _ _ _ _ _ _ _ _ Htab);
    [lia | reflexivity].
Defined.

(** ** The columns of the scenario table *)

Lemma nodup_fixed (l : list string) : nodup string_dec l = l -> NoDup l.
Proof.
  intros H. rewrite <- H. apply NoDup_nodup.
Qed.

(** X23. Whatever the six checkboxes, the columns selected for the
    scenario table start with 'Prazo', are all keys of the scenario rows
    (the selection never fails on a missing column), hold no column twice,
    and still have distinct names after the renaming of the formatted
    columns.  Without "Retornos" the boxes for period and annual returns
    have no effect. *)
Theorem display_columns_sound
    (show_returns show_period show_annual show_cdi show_values show_taxes
       : bool) :
  let columns :=
    Tab2Display.display_columns show_returns show_period show_annual
      show_cdi show_values show_taxes in
  hd_error columns = Some "Prazo"%string /\
  Tab2Display.select_columns show_returns show_period show_annual
    show_cdi show_values show_taxes = Some columns /\
  incl columns Tab2Display.scenario_keys /\
  NoDup columns /\
  NoDup (map Tab2Display.rename columns) /\
  (show_returns = false ->
   columns
   = Tab2Display.display_columns false false false
       show_cdi show_values show_taxes).
Proof.
  intros columns.
  assert (Hsel : Tab2Display.select_columns show_returns show_period
                   show_annual show_cdi show_values show_taxes
                 = Some columns).
  { unfold columns.
    destruct show_returns, show_period, show_annual, show_cdi, show_values,
      show_taxes; vm_compute; reflexivity. }
  split; [reflexivity | split; [exact Hsel | split; [| split; [| split]]]].
  - unfold Tab2Display.select_columns in Hsel. fold columns in Hsel.
    destruct (forallb _ columns) eqn:Hall; [| discriminate Hsel].
    intros c Hin. rewrite forallb_forall in Hall.
    apply Hall in Hin. apply existsb_exists in Hin.
    destruct Hin as (k & Hk & Heq). apply String.eqb_eq in Heq.
    subst k. exact Hk.
  - apply nodup_fixed. unfold columns.
    destruct show_returns, show_period, show_annual, show_cdi, show_values,
      show_taxes; vm_compute; reflexivity.
  - apply nodup_fixed. unfold columns.
    destruct show_returns, show_period, show_annual, show_cdi, show_values,
      show_taxes; vm_compute; reflexivity.
  - intros ->. reflexivity.
Qed.

Lemma display_columns_sound_witness :
  Tab2Display.display_columns false true true true true false
  = Tab2Display.display_columns false false false true true false.
Proof.
  apply (display_columns_sound false true true true true false).
  reflexivity.
Defined.

(** ** The currency format *)

Lemma replace_chain_swaps (t : string) :
  no_X t ->
  str_replace "X" "." (str_replace "." "," (str_replace "," "X" t))
  = string_map swap_separators t.
Proof.
  induction t as [| c rest IH]; [reflexivity |].
  intros [Hc Hrest]. cbn [str_replace string_map].
  rewrite (IH Hrest). f_equal. unfold swap_separators.
  destruct (Ascii.eqb_spec c ",") as [-> | Hcomma]; [reflexivity |].
  destruct (Ascii.eqb_spec c ".") as [-> | Hpoint]; [reflexivity |].
  destruct (Ascii.eqb_spec c "X") as [-> | _]; [contradiction | reflexivity].
Qed.

(** X24. On any rendering that holds no capital X -- as every rendering
    of a number does -- [format_currency] puts "R$ " in front and
    exchanges commas and points, leaving every other character in place:
    the thousands separators become points and the decimal point a
    comma. *)
Theorem format_currency_swaps (value_2f : string) :
  no_X value_2f ->
  format_currency value_2f
  = ("R$ " ++ string_map swap_separators value_2f)%string.
Proof.
  intros Hx. unfold format_currency.
  rewrite (replace_chain_swaps ("R$ " ++ value_2f)).
  - reflexivity.
  - cbn. repeat split; try discriminate. exact Hx.
Qed.

Lemma format_currency_swaps_witness :
  format_currency "-1,234,567.89" = "R$ -1.234.567,89"%string.
Proof.
  rewrite (format_currency_swaps "-1,234,567.89").
  - reflexivity.
  - cbn. repeat split; discriminate.
Defined.
